(** * Project Sentinel: a shallow embedding of [analysis.py], [connectors.py]
    and [main.py], and the properties of the sentiment pipeline.

    Python values are modelled as the interpreter has them: [float] is IEEE
    binary64 (the specification floats of the standard library, evaluated on
    integers), [str] is the UTF-8 byte string of the source text, exceptions
    are results threaded through a state monad whose state carries the
    program's observable trace (printed lines and calls to the outside
    world) and the state of the broker connection. *)

From Stdlib Require Import ZArith List String Ascii Bool Lia.
From Stdlib Require Import Floats.SpecFloat DecimalString.
Import ListNotations.

Set Warnings "-register-all".

Local Open Scope string_scope.
Local Open Scope Z_scope.

(** ** Python strings *)

(** [s * n] on strings. *)
Fixpoint str_repeat (s : string) (n : nat) : string :=
  match n with
  | O => ""
  | S k => s ++ str_repeat s k
  end.

(** A byte that continues a UTF-8 encoded code point ([10xxxxxx]). *)
Definition utf8_continuation (c : ascii) : bool :=
  let n := N_of_ascii c in (128 <=? n)%N && (n <? 192)%N.

(** [len(s)]: the number of code points of a string. *)
Fixpoint py_len (s : string) : nat :=
  match s with
  | EmptyString => O
  | String c r => if utf8_continuation c then py_len r else S (py_len r)
  end.

(** The format specification [:<w], left alignment in a field of [w]
    characters. *)
Definition ljust (w : nat) (s : string) : string :=
  s ++ str_repeat " " (w - py_len s).

(** [str.lower] on the ASCII letters, which is what configparser's
    [optionxform] does to the option names used here. *)
Definition ascii_lower (c : ascii) : ascii :=
  let n := N_of_ascii c in
  if (65 <=? n)%N && (n <=? 90)%N then ascii_of_N (n + 32) else c.

Fixpoint str_lower (s : string) : string :=
  match s with
  | EmptyString => EmptyString
  | String c r => String (ascii_lower c) (str_lower r)
  end.

(** The code points of a string, each as the string of its bytes
    (iteration over a [str]). *)
Fixpoint str_chars_aux (cur : string) (s : string) : list string :=
  match s with
  | EmptyString => match cur with EmptyString => [] | _ => [cur] end
  | String c r =>
      if utf8_continuation c then str_chars_aux (cur ++ String c "") r
      else match cur with
           | EmptyString => str_chars_aux (String c "") r
           | _ => cur :: str_chars_aux (String c "") r
           end
  end.

Definition str_chars (s : string) : list string := str_chars_aux "" s.

(** Decimal digits of a natural number. *)
Definition str_of_N (n : N) : string := NilZero.string_of_uint (N.to_uint n).

(** [str(z)] for an [int]. *)
Definition str_of_Z (z : Z) : string :=
  match z with
  | Zneg p => "-" ++ str_of_N (Npos p)
  | _ => str_of_N (Z.to_N z)
  end.

(** [n] written on at least [w] digits, padded with zeros on the left. *)
Definition zfill (w : nat) (n : N) : string :=
  let d := str_of_N n in str_repeat "0" (w - String.length d) ++ d.

(** ** Python floats: IEEE binary64 *)

Definition float := spec_float.

Definition prec : Z := 53.
Definition emax : Z := 1024.

Definition float_add : float -> float -> float := SFadd prec emax.
Definition float_div : float -> float -> float := SFdiv prec emax.
Definition float_neg : float -> float := SFopp.

(** [x < y] and [x <= y]; both are [False] when an operand is NaN. *)
Definition float_lt : float -> float -> bool := SFltb.
Definition float_le : float -> float -> bool := SFleb.
(** [x > y] is [y < x]. *)
Definition float_gt (x y : float) : bool := float_lt y x.

Definition is_nan (x : float) : bool :=
  match x with S754_nan => true | _ => false end.

(** Conversion of an [int] to [float], rounding to nearest, ties to even. *)
Definition float_of_Z (z : Z) : float := binary_normalize prec emax z 0 false.

(** The value of a decimal literal [num / 10^k] with both integers below
    2^53: the binary64 number nearest to the quotient. *)
Definition float_lit (num den : Z) : float :=
  float_div (float_of_Z num) (float_of_Z den).

Definition float_zero : float := S754_zero false.

(** *** Fixed-point formatting: [format(x, '.df')] and [format(x, ',.df')] *)

(** The integer nearest to [m * 2^e * 10^d], ties to even. *)
Definition scaled_round (m : positive) (e : Z) (d : nat) : N :=
  let p10 := Z.pow 10 (Z.of_nat d) in
  match e with
  | Zneg k =>
      let num := Zpos m * p10 in
      let den := Z.pow 2 (Zpos k) in
      let q := num / den in
      let r := num mod den in
      match Z.compare (2 * r) den with
      | Lt => Z.to_N q
      | Gt => Z.to_N (q + 1)
      | Eq => if Z.even q then Z.to_N q else Z.to_N (q + 1)
      end
  | _ => Z.to_N (Zpos m * Z.pow 2 e * p10)
  end.

(** Groups of three digits separated by commas, from the right. *)
Fixpoint group3_rev (fuel : nat) (n : N) : string :=
  match fuel with
  | O => str_of_N n
  | S k =>
      if (n <? 1000)%N then str_of_N n
      else group3_rev k (n / 1000)%N ++ "," ++ zfill 3 (n mod 1000)%N
  end.

Definition int_digits (grouped : bool) (n : N) : string :=
  if grouped then group3_rev (N.to_nat (N.log2 n)) n else str_of_N n.

Definition fixed_digits (grouped : bool) (d : nat) (scaled : N) : string :=
  let p10 := (10 ^ N.of_nat d)%N in
  let ip := int_digits grouped (scaled / p10)%N in
  match d with
  | O => ip
  | _ => ip ++ "." ++ zfill d (scaled mod p10)%N
  end.

Definition format_fixed (grouped : bool) (d : nat) (x : float) : string :=
  match x with
  | S754_nan => "nan"
  | S754_infinity s => if s then "-inf" else "inf"
  | S754_zero s => (if s then "-" else "") ++ fixed_digits grouped d 0%N
  | S754_finite s m e =>
      (if s then "-" else "") ++ fixed_digits grouped d (scaled_round m e d)
  end.

(** [f"{x:.3f}"], [f"{x:.4f}"] and [f"{x:,.2f}"]. *)
Definition format_f (d : nat) (x : float) : string := format_fixed false d x.
Definition format_comma_f (d : nat) (x : float) : string := format_fixed true d x.

(** ** Python values and exceptions *)

(** The values a decoded JSON document is made of. *)
Inductive pyval : Type :=
| VNone
| VBool (b : bool)
| VInt (z : Z)
| VFloat (x : float)
| VStr (s : string)
| VList (l : list pyval)
| VDict (d : list (string * pyval)).

(** Instances of [Exception], by the classes the handlers of the program
    tell apart.  [RequestException] and [OtherException] carry the name of
    the concrete class. *)
Inductive exn : Type :=
| FileNotFoundError (msg : string)
| NoSectionError (section : string)
| NoOptionError (opt section : string)
| ConnectionRefusedError (msg : string)
| RequestException (type_name msg : string)
| KeyError (key_repr : string)
| OtherException (type_name msg : string).

Inductive result (A : Type) : Type :=
| Ok (a : A)
| Raise (e : exn).
Arguments Ok {A} a.
Arguments Raise {A} e.

(** [repr] of a string without quote or escape characters. *)
Definition repr_str (s : string) : string := "'" ++ s ++ "'".

Definition exn_type_name (e : exn) : string :=
  match e with
  | FileNotFoundError _ => "FileNotFoundError"
  | NoSectionError _ => "NoSectionError"
  | NoOptionError _ _ => "NoOptionError"
  | ConnectionRefusedError _ => "ConnectionRefusedError"
  | RequestException n _ => n
  | KeyError _ => "KeyError"
  | OtherException n _ => n
  end.

(** [str(e)]. *)
Definition exn_str (e : exn) : string :=
  match e with
  | FileNotFoundError m => m
  | NoSectionError s => "No section: " ++ repr_str s
  | NoOptionError o s => "No option " ++ repr_str o ++ " in section: " ++ repr_str s
  | ConnectionRefusedError m => m
  | RequestException _ m => m
  | KeyError k => k
  | OtherException _ m => m
  end.

Definition py_type_name (v : pyval) : string :=
  match v with
  | VNone => "NoneType"
  | VBool _ => "bool"
  | VInt _ => "int"
  | VFloat _ => "float"
  | VStr _ => "str"
  | VList _ => "list"
  | VDict _ => "dict"
  end.

Definition TypeError {A} (msg : string) : result A :=
  Raise (OtherException "TypeError" msg).

Definition float_is_zero (x : float) : bool :=
  match x with S754_zero _ => true | _ => false end.

(** Truth value of an object ([if x:], [not x]). *)
Definition py_truthy (v : pyval) : bool :=
  match v with
  | VNone => false
  | VBool b => b
  | VInt z => negb (z =? 0)
  | VFloat x => negb (float_is_zero x)
  | VStr s => negb (String.eqb s "")
  | VList l => match l with [] => false | _ => true end
  | VDict d => match d with [] => false | _ => true end
  end.

Fixpoint assoc {A : Type} (k : string) (d : list (string * A)) : option A :=
  match d with
  | [] => None
  | (k', v) :: r => if String.eqb k k' then Some v else assoc k r
  end.

(** [v.get(k, default)]; only a [dict] has the method. *)
Definition py_get (v : pyval) (k : string) (default : pyval) : result pyval :=
  match v with
  | VDict d => Ok (match assoc k d with Some x => x | None => default end)
  | _ => Raise (OtherException "AttributeError"
                  (repr_str (py_type_name v) ++ " object has no attribute 'get'"))
  end.

(** [v[k]] for a string key. *)
Definition getitem_str (v : pyval) (k : string) : result pyval :=
  match v with
  | VDict d => match assoc k d with
               | Some x => Ok x
               | None => Raise (KeyError (repr_str k))
               end
  | VList _ => TypeError "list indices must be integers or slices, not str"
  | VStr _ => TypeError "string indices must be integers, not 'str'"
  | _ => TypeError (repr_str (py_type_name v) ++ " object is not subscriptable")
  end.

(** [v[0]]. *)
Definition getitem_0 (v : pyval) : result pyval :=
  match v with
  | VList l => match l with
               | x :: _ => Ok x
               | [] => Raise (OtherException "IndexError" "list index out of range")
               end
  | VStr s => match str_chars s with
              | c :: _ => Ok (VStr c)
              | [] => Raise (OtherException "IndexError" "string index out of range")
              end
  | VDict _ => Raise (KeyError "0")
  | _ => TypeError (repr_str (py_type_name v) ++ " object is not subscriptable")
  end.

(** Iteration over a value: the elements of a list, the keys of a dict, the
    characters of a string. *)
Definition py_iter (v : pyval) : result (list pyval) :=
  match v with
  | VList l => Ok l
  | VDict d => Ok (map (fun kv => VStr (fst kv)) d)
  | VStr s => Ok (map VStr (str_chars s))
  | _ => TypeError (repr_str (py_type_name v) ++ " object is not iterable")
  end.

(** ** The interpreter's and the libraries' pure services

    What the program takes from Python and from its libraries without any
    design of its own: the parsers of [float()] and [int()] on strings, the
    [str()] of values put into log lines, configparser's interpolation of a
    stored value, and VADER's polarity model.  The polarity model is
    deterministic and scores every text; on a value that is not a string
    its behaviour is the library's. *)

Record scores : Type := mkScores {
  neg : float;
  neu : float;
  pos : float;
  compound : float
}.

Record runtime : Type := mkRuntime {
  float_of_str : string -> option float;
  int_of_str : string -> option Z;
  str_of_float : float -> string;
  str_of_val : pyval -> string;
  interpolation : list (string * string) -> string -> string -> string -> result string;
  vader : string -> scores;
  vader_other : pyval -> result scores
}.

(** [float(v)]. *)
Definition py_float (rt : runtime) (v : pyval) : result float :=
  match v with
  | VFloat x => Ok x
  | VInt z =>
      match float_of_Z z with
      | S754_infinity _ =>
          Raise (OtherException "OverflowError" "int too large to convert to float")
      | x => Ok x
      end
  | VBool b => Ok (float_of_Z (if b then 1 else 0))
  | VStr s =>
      match float_of_str rt s with
      | Some x => Ok x
      | None => Raise (OtherException "ValueError"
                         ("could not convert string to float: " ++ repr_str s))
      end
  | _ => TypeError ("float() argument must be a string or a real number, not "
                    ++ repr_str (py_type_name v))
  end.

(** [x / n] for a float [x] and an int [n]: the int is converted to binary64
    and a zero divisor raises; the conversion of an int is zero exactly when
    the int is. *)
Definition truediv_int (x : float) (n : Z) : result float :=
  if n =? 0 then Raise (OtherException "ZeroDivisionError" "float division by zero")
  else Ok (float_div x (float_of_Z n)).

(** [analyzer.polarity_scores(text)]. *)
Definition polarity_scores (rt : runtime) (text : pyval) : result scores :=
  match text with
  | VStr s => Ok (vader rt s)
  | _ => vader_other rt text
  end.

(** ** The outside world and the observable trace *)

Record datetime : Type := mkDatetime {
  year : N; month : N; day : N; hour : N; minute : N; second : N
}.

(** [dt.strftime('%Y-%m-%d %H:%M:%S %Z')] for an aware UTC datetime. *)
Definition strftime_utc (t : datetime) : string :=
  zfill 4 (year t) ++ "-" ++ zfill 2 (month t) ++ "-" ++ zfill 2 (day t) ++ " "
  ++ zfill 2 (hour t) ++ ":" ++ zfill 2 (minute t) ++ ":" ++ zfill 2 (second t)
  ++ " UTC".

Record ContractDetails : Type := mkContractDetails { longName : string }.

Record Response : Type := mkResponse {
  status_code : Z;
  reason : string;
  url : string;
  json : result pyval
}.

(** A loaded [ConfigParser]: the [DEFAULT] section and the named sections,
    option names as stored (lower case). *)
Record ConfigParser : Type := mkConfig {
  defaults : list (string * string);
  sections : list (string * list (string * string))
}.

(** One run's answers from the outside world.  [config_read] is [None] when
    the file cannot be opened, a raised error when it does not parse.  The
    broker calls also tell whether the socket is connected afterwards. *)
Record world : Type := mkWorld {
  utc_now : datetime;
  config_read : string -> option (result ConfigParser);
  ib_connect : string -> Z -> Z -> result unit * bool;
  ib_reqContractDetails : result (list ContractDetails) * bool;
  kraken_query_public : string -> list (string * string) -> result pyval;
  requests_get : string -> list (string * string) -> result Response
}.

Inductive event : Type :=
| Print (line : string)
| IBConnect (host : string) (port client_id : Z)
| IBReqContractDetails (symbol exchange currency : string)
| IBDisconnect
| KrakenQueryPublic (method : string) (data : list (string * string))
| HttpGet (url : string) (params : list (string * string)).

Record state : Type := mkState {
  trace : list event;
  ib_connected : bool
}.

Definition initial_state : state := {| trace := []; ib_connected := false |}.

(** ** The monad of the program: state and exceptions *)

Definition M (A : Type) : Type := state -> result A * state.

Definition ret {A} (a : A) : M A := fun s => (Ok a, s).

Definition raise {A} (e : exn) : M A := fun s => (Raise e, s).

Definition bind {A B} (m : M A) (k : A -> M B) : M B :=
  fun s =>
    match m s with
    | (Ok a, s') => k a s'
    | (Raise e, s') => (Raise e, s')
    end.

Definition lift {A} (r : result A) : M A := fun s => (r, s).

(** [try: body / except ...: handler]; the handler re-raises what no clause
    matches. *)
Definition try_except {A} (body : M A) (handler : exn -> M A) : M A :=
  fun s =>
    match body s with
    | (Ok a, s') => (Ok a, s')
    | (Raise e, s') => handler e s'
    end.

(** [try: body / finally: cleanup]: the cleanup runs on every exit of the
    body, a return or a raise. *)
Definition try_finally {A} (body : M A) (cleanup : M unit) : M A :=
  fun s =>
    match body s with
    | (r, s') =>
        match cleanup s' with
        | (Ok _, s'') => (r, s'')
        | (Raise e, s'') => (Raise e, s'')
        end
    end.

Definition emit (ev : event) : M unit :=
  fun s => (Ok tt, {| trace := (trace s ++ [ev])%list; ib_connected := ib_connected s |}).

Definition print (line : string) : M unit := emit (Print line).

Definition set_connected (b : bool) : M unit :=
  fun s => (Ok tt, {| trace := trace s; ib_connected := b |}).

Definition isConnected : M bool := fun s => (Ok (ib_connected s), s).

Declare Scope py_scope.
Delimit Scope py_scope with py.
Notation "x <- m ;; k" := (bind m (fun x => k))
  (at level 100, m at next level, right associativity) : py_scope.
Notation "m ;; k" := (bind m (fun _ => k))
  (at level 100, right associativity) : py_scope.
Local Open Scope py_scope.

Definition nl : string := String (ascii_of_nat 10) "".

(** ** analysis.py *)

(** One entry of ['details']. *)
Record detail : Type := mkDetail {
  headline : pyval;
  sentiment_scores : scores
}.

(** The dictionary [analyze_headlines_sentiment] returns. *)
Record summary : Type := mkSummary {
  average_sentiment_compound : float;
  details : list detail
}.

(** A list comprehension or a loop that stops at the first raise. *)
Fixpoint map_result {A B : Type} (f : A -> result B) (l : list A) : result (list B) :=
  match l with
  | [] => Ok []
  | a :: r =>
      match f a with
      | Raise e => Raise e
      | Ok b => match map_result f r with
                | Raise e => Raise e
                | Ok bs => Ok (b :: bs)
                end
      end
  end.

Section Program.

Variable rt : runtime.
Variable w : world.

(** The loop over the headlines, with its two accumulators. *)
Fixpoint analyze_loop (headlines : list pyval) (detailed_results : list detail)
    (total_compound_score : float) : result (list detail * float) :=
  match headlines with
  | [] => Ok (detailed_results, total_compound_score)
  | headline :: rest =>
      match polarity_scores rt headline with
      | Raise e => Raise e
      | Ok sentiment_scores =>
          analyze_loop rest
            (detailed_results ++ [mkDetail headline sentiment_scores])%list
            (float_add total_compound_score (compound sentiment_scores))
      end
  end.

(** The analyzer is built once, before the loop; its construction belongs
    to the polarity model. *)
Definition analyze_headlines_sentiment (headlines : list pyval) : M summary :=
  match headlines with
  | [] =>
      print "[ANALYSIS]: La lista de titulares está vacía. No hay nada que analizar." ;;
      ret (mkSummary float_zero [])
  | _ =>
      print ("[ANALYSIS]: Analizando " ++ str_of_N (N.of_nat (List.length headlines))
             ++ " titulares...") ;;
      acc <- lift (analyze_loop headlines [] float_zero) ;;
      let '(detailed_results, total_compound_score) := acc in
      average_compound <-
        lift (truediv_int total_compound_score (Z.of_nat (List.length headlines))) ;;
      print ("[ANALYSIS]: Análisis completado. Sentimiento compuesto promedio: "
             ++ format_f 4 average_compound) ;;
      ret (mkSummary average_compound detailed_results)
  end.

(** ** connectors.py *)

Definition get_btc_price : M float :=
  try_except
    (emit (KrakenQueryPublic "Ticker" [("pair", "XXBTZUSD")]) ;;
     response <- lift (kraken_query_public w "Ticker" [("pair", "XXBTZUSD")]) ;;
     err <- lift (py_get response "error" VNone) ;;
     if py_truthy err then
       e <- lift (getitem_str response "error") ;;
       print ("[Error KRAKEN API]: " ++ str_of_val rt e) ;;
       ret float_zero
     else
       r <- lift (getitem_str response "result") ;;
       p <- lift (getitem_str r "XXBTZUSD") ;;
       c <- lift (getitem_str p "c") ;;
       c0 <- lift (getitem_0 c) ;;
       last_trade_price <- lift (py_float rt c0) ;;
       print ("[KRAKEN]: Precio de BTC/USD obtenido: " ++ str_of_float rt last_trade_price) ;;
       ret last_trade_price)
    (fun e =>
       print ("[Error Crítico en get_btc_price]: No se pudo conectar o procesar la respuesta de Kraken. "
              ++ exn_str e) ;;
       ret float_zero).

(** [ib.connect(host, port, clientId=client_id, timeout=10)]. *)
Definition connect (host : string) (port client_id : Z) : M unit :=
  emit (IBConnect host port client_id) ;;
  let '(r, c) := ib_connect w host port client_id in
  set_connected c ;;
  lift r.

(** [ib.reqContractDetails(Stock(symbol, exchange, currency))]. *)
Definition reqContractDetails (symbol exchange currency : string)
    : M (list ContractDetails) :=
  emit (IBReqContractDetails symbol exchange currency) ;;
  let '(r, c) := ib_reqContractDetails w in
  set_connected c ;;
  lift r.

(** [ib.disconnect()]. *)
Definition disconnect : M unit :=
  emit IBDisconnect ;;
  set_connected false.

Definition get_spy_name (host : string) (port client_id : Z) : M string :=
  (* ib = IB(): a fresh client, not connected *)
  set_connected false ;;
  try_finally
    (try_except
       (print ("[IBKR]: Conectando a " ++ host ++ ":" ++ str_of_Z port
               ++ " con ClientID " ++ str_of_Z client_id ++ "...") ;;
        connect host port client_id ;;
        let symbol := "SPY" in
        details_list <- reqContractDetails symbol "SMART" "USD" ;;
        match details_list with
        | [] =>
            print ("[Error IBKR]: No se encontraron detalles para el contrato "
                   ++ symbol ++ ".") ;;
            ret "Desconocido"
        | first :: _ =>
            let long_name := longName first in
            print ("[IBKR]: Nombre del contrato obtenido: " ++ long_name) ;;
            ret long_name
        end)
       (fun e =>
          match e with
          | ConnectionRefusedError _ =>
              print ("[Error Crítico en get_spy_name]: Conexión rechazada. ¿Está TWS/Gateway en ejecución y la API habilitada en "
                     ++ host ++ ":" ++ str_of_Z port ++ "?") ;;
              ret "Desconocido"
          | _ =>
              print ("[Error Crítico en get_spy_name]: Ocurrió un error con Interactive Brokers. "
                     ++ exn_str e) ;;
              ret "Desconocido"
          end))
    (c <- isConnected ;;
     if c then
       print "[IBKR]: Desconectando sesión." ;;
       disconnect
     else ret tt).

(** [response.raise_for_status()]. *)
Definition raise_for_status (response : Response) : result unit :=
  let code := status_code response in
  let msg kind :=
    str_of_Z code ++ " " ++ kind ++ " Error: " ++ reason response
    ++ " for url: " ++ url response in
  if (400 <=? code) && (code <? 500) then
    Raise (RequestException "HTTPError" (msg "Client"))
  else if (500 <=? code) && (code <? 600) then
    Raise (RequestException "HTTPError" (msg "Server"))
  else Ok tt.

Definition get_market_news (api_key query : string) : M (list pyval) :=
  let base_url := "https://newsapi.org/v2/everything" in
  let params :=
    [("q", query); ("language", "en"); ("sortBy", "publishedAt"); ("apiKey", api_key)] in
  try_except
    (emit (HttpGet base_url params) ;;
     response <- lift (requests_get w base_url params) ;;
     lift (raise_for_status response) ;;
     data <- lift (json response) ;;
     articles <- lift (py_get data "articles" (VList [])) ;;
     items <- lift (py_iter articles) ;;
     headlines <- lift (map_result (fun article => getitem_str article "title") items) ;;
     print ("[NEWSAPI]: Obtenidos " ++ str_of_N (N.of_nat (List.length headlines))
            ++ " titulares para la consulta '" ++ query ++ "'.") ;;
     ret headlines)
    (fun e =>
       match e with
       | RequestException _ _ =>
           print ("[Error Crítico en get_market_news]: Fallo en la solicitud a NewsAPI. "
                  ++ exn_str e) ;;
           ret []
       | KeyError _ =>
           print "[Error Crítico en get_market_news]: Formato de respuesta inesperado de NewsAPI." ;;
           ret []
       | _ =>
           print ("[Error Crítico en get_market_news]: Ocurrió un error inesperado. "
                  ++ exn_str e) ;;
           ret []
       end).

(** ** main.py *)

Definition load_config (filename : string) : M ConfigParser :=
  match config_read w filename with
  | None =>
      raise (FileNotFoundError ("Error: El archivo de configuración '" ++ filename
                                ++ "' no fue encontrado."))
  | Some r => lift r
  end.

(** [config.get(section, option)]: the section's own options first, then
    those of [DEFAULT]. *)
Definition config_get (config : ConfigParser) (section opt : string) : result string :=
  let sectiondict :=
    match assoc section (sections config) with
    | Some d => Some d
    | None => if String.eqb section "DEFAULT" then Some [] else None
    end in
  match sectiondict with
  | None => Raise (NoSectionError section)
  | Some d =>
      let chain := (d ++ defaults config)%list in
      let o := str_lower opt in
      match assoc o chain with
      | Some value => interpolation rt chain section o value
      | None => Raise (NoOptionError o section)
      end
  end.

(** [config.getint(section, option)]. *)
Definition config_getint (config : ConfigParser) (section opt : string) : result Z :=
  match config_get config section opt with
  | Raise e => Raise e
  | Ok value =>
      match int_of_str rt value with
      | Some z => Ok z
      | None => Raise (OtherException "ValueError"
                         ("invalid literal for int() with base 10: " ++ repr_str value))
      end
  end.

Definition get_sentiment_label (score : float) : string :=
  if float_gt score (float_lit 3 10) then "POSITIVO"
  else if float_gt score (float_lit 5 100) then "NEUTRAL-POSITIVO"
  else if float_lt score (float_neg (float_lit 3 10)) then "NEGATIVO"
  else if float_lt score (float_neg (float_lit 5 100)) then "NEUTRAL-NEGATIVO"
  else "NEUTRAL".

Definition display_report (spy_name : string) (sentiment_score btc_price : float)
    : M unit :=
  let timestamp_utc := strftime_utc (utc_now w) in
  let sentiment_label := get_sentiment_label sentiment_score in
  let separator := str_repeat "=" 63 in
  print separator ;;
  print "    PROJECT SENTINEL - CRYPTO & TRADFI SENTIMENT BRIDGE" ;;
  print ("            Fecha y Hora: " ++ timestamp_utc) ;;
  print separator ;;
  print "" ;;
  print "[1] ANÁLISIS DEL MERCADO TRADICIONAL (S&P 500)" ;;
  print (str_repeat "-" 63) ;;
  print (ljust 30 "-> Activo de Referencia" ++ ": " ++ spy_name ++ " (vía IBKR)") ;;
  print (ljust 30 "-> Sentimiento de Noticias" ++ ": " ++ sentiment_label
         ++ " (vía NewsAPI & AI)") ;;
  print (ljust 30 "-> Puntuación de Sentimiento" ++ ": " ++ format_f 3 sentiment_score) ;;
  print "" ;;
  print "[2] DATOS DEL MERCADO CRYPTO" ;;
  print (str_repeat "-" 63) ;;
  print (ljust 30 "-> Activo" ++ ": Bitcoin (XBT/USD) (vía Kraken)") ;;
  print (ljust 30 "-> Precio Actual" ++ ": $" ++ format_comma_f 2 btc_price) ;;
  print "" ;;
  print "[3] CONCLUSIÓN" ;;
  print (str_repeat "-" 63) ;;
  print ("El sentimiento del mercado tradicional es " ++ sentiment_label ++ ".") ;;
  print "Monitorear si este sentimiento se traslada a los activos de riesgo como Bitcoin." ;;
  print "" ;;
  print separator ;;
  print "                     FIN DEL INFORME" ;;
  print separator.

Definition main : M unit :=
  print "Iniciando Project Sentinel..." ;;
  try_except
    (config <- load_config "config.ini" ;;
     ib_host <- lift (config_get config "IBKR" "HOST") ;;
     ib_port <- lift (config_getint config "IBKR" "PORT") ;;
     ib_client_id <- lift (config_getint config "IBKR" "CLIENT_ID") ;;
     news_api_key <- lift (config_get config "NEWS_API" "API_KEY") ;;
     print "Configuración cargada. Obteniendo datos..." ;;
     spy_name <- get_spy_name ib_host ib_port ib_client_id ;;
     print ("Nombre del ETF SPY obtenido: " ++ spy_name) ;;
     headlines <- get_market_news news_api_key spy_name ;;
     sentiment_analysis <- analyze_headlines_sentiment headlines ;;
     let avg_sentiment_score := average_sentiment_compound sentiment_analysis in
     btc_price <- get_btc_price ;;
     print "Datos recopilados. Generando informe..." ;;
     display_report spy_name avg_sentiment_score btc_price)
    (fun e =>
       match e with
       | FileNotFoundError _ =>
           print (nl ++ "ERROR CRÍTICO: " ++ exn_str e) ;;
           print "Por favor, asegúrate de que 'config.ini' existe en el mismo directorio." ;;
           print "Puedes crearlo a partir de 'config.ini.example'."
       | NoSectionError section =>
           print (nl ++ "ERROR DE CONFIGURACIÓN: Falta la sección " ++ section
                  ++ " en 'config.ini'.")
       | NoOptionError opt section =>
           print (nl ++ "ERROR DE CONFIGURACIÓN: Falta la opción '" ++ opt
                  ++ "' en la sección '" ++ section ++ "' de 'config.ini'.")
       | _ =>
           print (nl ++ "HA OCURRIDO UN ERROR INESPERADO:") ;;
           print ("Tipo de Error: " ++ exn_type_name e) ;;
           print ("Mensaje: " ++ exn_str e) ;;
           print "La ejecución del programa se ha detenido."
       end).

End Program.

(** ** Notions the properties are stated with *)

(** Running a computation from a state. *)
Definition run {A} (m : M A) (s : state) : result A := fst (m s).
Definition final {A} (m : M A) (s : state) : state := snd (m s).
Definition trace_of {A} (m : M A) : list event := trace (final m initial_state).

(** What a trace shows on the standard output: every printed line followed
    by a newline. *)
Fixpoint stdout_text (tr : list event) : string :=
  match tr with
  | [] => ""
  | Print line :: r => line ++ nl ++ stdout_text r
  | _ :: r => stdout_text r
  end.

(** The three fetch operations start with a call to their service. *)
Definition is_fetch (ev : event) : bool :=
  match ev with
  | IBConnect _ _ _ | KrakenQueryPublic _ _ | HttpGet _ _ => true
  | _ => false
  end.

Definition no_fetch (tr : list event) : bool := forallb (fun ev => negb (is_fetch ev)) tr.

(** The sum of a list of floats as the loop accumulates it, from [0.0] and
    from the left, and the unweighted mean over the number of elements. *)
Definition float_sum (xs : list float) : float := fold_left float_add xs float_zero.

Definition arithmetic_mean (xs : list float) : float :=
  float_div (float_sum xs) (float_of_Z (Z.of_nat (List.length xs))).

(** The entry of ['details'] for a headline string. *)
Definition detail_of (rt : runtime) (h : string) : detail :=
  mkDetail (VStr h) (vader rt h).

(** The five categories of the labeler in increasing order, and the text the
    program prints for each. *)
Inductive label : Type :=
| NEGATIVE | NEUTRAL_NEGATIVE | NEUTRAL | NEUTRAL_POSITIVE | POSITIVE.

Definition label_text (l : label) : string :=
  match l with
  | NEGATIVE => "NEGATIVO"
  | NEUTRAL_NEGATIVE => "NEUTRAL-NEGATIVO"
  | NEUTRAL => "NEUTRAL"
  | NEUTRAL_POSITIVE => "NEUTRAL-POSITIVO"
  | POSITIVE => "POSITIVO"
  end.

Definition label_rank (l : label) : nat :=
  match l with
  | NEGATIVE => 0
  | NEUTRAL_NEGATIVE => 1
  | NEUTRAL => 2
  | NEUTRAL_POSITIVE => 3
  | POSITIVE => 4
  end.

(** The thresholds, as the literals [0.3] and [0.05] denote them. *)
Definition t_high : float := float_lit 3 10.
Definition t_low : float := float_lit 5 100.

(** The table of the labeler, row by row. *)
Inductive label_table (score : float) : label -> Prop :=
| row_positive :
    float_gt score t_high = true -> label_table score POSITIVE
| row_neutral_positive :
    float_gt score t_low = true -> float_le score t_high = true ->
    label_table score NEUTRAL_POSITIVE
| row_negative :
    float_lt score (float_neg t_high) = true -> label_table score NEGATIVE
| row_neutral_negative :
    float_le (float_neg t_high) score = true ->
    float_lt score (float_neg t_low) = true ->
    label_table score NEUTRAL_NEGATIVE
| row_neutral :
    float_le (float_neg t_low) score = true -> float_le score t_low = true ->
    label_table score NEUTRAL.

(** A computation only adds events to the trace. *)
Definition grows {A} (m : M A) : Prop :=
  forall s, exists evs, trace (final m s) = (trace s ++ evs)%list.

(** A computation that returns [a] after adding exactly the events [evs] to
    the trace, the connection left as it was. *)
Definition writes {A} (m : M A) (a : A) (evs : list event) : Prop :=
  forall s, m s = (Ok a, {| trace := (trace s ++ evs)%list; ib_connected := ib_connected s |}).

(** [float(response['result']['XXBTZUSD']['c'][0])]. *)
Definition ticker_price (rt : runtime) (response : pyval) : result float :=
  match getitem_str response "result" with
  | Raise e => Raise e
  | Ok r =>
      match getitem_str r "XXBTZUSD" with
      | Raise e => Raise e
      | Ok p =>
          match getitem_str p "c" with
          | Raise e => Raise e
          | Ok c =>
              match getitem_0 c with
              | Raise e => Raise e
              | Ok c0 => py_float rt c0
              end
          end
      end
  end.

(** [[article['title'] for article in data.get('articles', [])]]. *)
Definition news_titles (data : pyval) : result (list pyval) :=
  match py_get data "articles" (VList []) with
  | Raise e => Raise e
  | Ok articles =>
      match py_iter articles with
      | Raise e => Raise e
      | Ok items => map_result (fun article => getitem_str article "title") items
      end
  end.

(** The parameters of the news request for a credential and a query. *)
Definition news_params (api_key query : string) : list (string * string) :=
  [("q", query); ("language", "en"); ("sortBy", "publishedAt"); ("apiKey", api_key)].

(** The broker client is connected when the [try] block of [get_spy_name]
    is left. *)
Definition holds_connection (w : world) (host : string) (port client_id : Z) : bool :=
  match ib_connect w host port client_id with
  | (Raise _, c) => c
  | (Ok _, _) => snd (ib_reqContractDetails w)
  end.

(** The reference-asset fetch fails: the connection raises, or the request
    for the contract details raises or finds nothing. *)
Definition spy_fetch_fails (w : world) (host : string) (port client_id : Z) : bool :=
  match fst (ib_connect w host port client_id) with
  | Raise _ => true
  | Ok _ =>
      match fst (ib_reqContractDetails w) with
      | Raise _ => true
      | Ok [] => true
      | Ok (_ :: _) => false
      end
  end.

(** The extraction of the four settings in [main] raises [e]: at the first
    lookup that fails, the earlier ones having succeeded. *)
Inductive settings_raise (rt : runtime) (config : ConfigParser) (e : exn) : Prop :=
| raise_host :
    config_get rt config "IBKR" "HOST" = Raise e -> settings_raise rt config e
| raise_port : forall h,
    config_get rt config "IBKR" "HOST" = Ok h ->
    config_getint rt config "IBKR" "PORT" = Raise e -> settings_raise rt config e
| raise_client_id : forall h p,
    config_get rt config "IBKR" "HOST" = Ok h ->
    config_getint rt config "IBKR" "PORT" = Ok p ->
    config_getint rt config "IBKR" "CLIENT_ID" = Raise e -> settings_raise rt config e
| raise_api_key : forall h p c,
    config_get rt config "IBKR" "HOST" = Ok h ->
    config_getint rt config "IBKR" "PORT" = Ok p ->
    config_getint rt config "IBKR" "CLIENT_ID" = Ok c ->
    config_get rt config "NEWS_API" "API_KEY" = Raise e -> settings_raise rt config e.

(** The messages of the three fatal configuration errors. *)
Definition msg_missing_file : list string :=
  [nl ++ "ERROR CRÍTICO: Error: El archivo de configuración 'config.ini' no fue encontrado.";
   "Por favor, asegúrate de que 'config.ini' existe en el mismo directorio.";
   "Puedes crearlo a partir de 'config.ini.example'."].

Definition msg_missing_section (section : string) : list string :=
  [nl ++ "ERROR DE CONFIGURACIÓN: Falta la sección " ++ section ++ " en 'config.ini'."].

Definition msg_missing_option (opt section : string) : list string :=
  [nl ++ "ERROR DE CONFIGURACIÓN: Falta la opción '" ++ opt ++ "' en la sección '"
   ++ section ++ "' de 'config.ini'."].

(** The state in which the [try] block of [main] starts. *)
Definition started : state :=
  {| trace := [Print "Iniciando Project Sentinel..."]; ib_connected := false |}.

(** The closed set of fatal configuration errors and when a run meets each:
    the file cannot be read, or the extraction of the settings stops at a
    missing section or at a missing option. *)
Inductive config_error : Type :=
| MissingFile
| MissingSection (name : string)
| MissingOption (section name : string).

Definition fatal_message (err : config_error) : list string :=
  match err with
  | MissingFile => msg_missing_file
  | MissingSection name => msg_missing_section name
  | MissingOption section name => msg_missing_option name section
  end.

Definition same_kind (e1 e2 : config_error) : bool :=
  match e1, e2 with
  | MissingFile, MissingFile => true
  | MissingSection _, MissingSection _ => true
  | MissingOption _ _, MissingOption _ _ => true
  | _, _ => false
  end.

Inductive config_fails (rt : runtime) (w : world) : config_error -> Prop :=
| fails_file :
    config_read w "config.ini" = None -> config_fails rt w MissingFile
| fails_section : forall config name,
    config_read w "config.ini" = Some (Ok config) ->
    settings_raise rt config (NoSectionError name) ->
    config_fails rt w (MissingSection name)
| fails_option : forall config section name,
    config_read w "config.ini" = Some (Ok config) ->
    settings_raise rt config (NoOptionError name section) ->
    config_fails rt w (MissingOption section name).

(** A computation that, from every state, gives the result [r] and adds
    exactly the events [evs] to the trace. *)
Definition steps {A} (m : M A) (r : result A) (evs : list event) : Prop :=
  forall s, run m s = r /\ trace (final m s) = (trace s ++ evs)%list.

(** The fetch events of a trace, in order. *)
Definition fetches (tr : list event) : list event := filter is_fetch tr.

(** What the three connectors return, read off the answers of the world. *)
Definition spy_name_result (w : world) (host : string) (port client_id : Z) : string :=
  match fst (ib_connect w host port client_id) with
  | Raise _ => "Desconocido"
  | Ok _ =>
      match fst (ib_reqContractDetails w) with
      | Raise _ => "Desconocido"
      | Ok [] => "Desconocido"
      | Ok (first :: _) => longName first
      end
  end.

Definition news_result (w : world) (api_key query : string) : list pyval :=
  match requests_get w "https://newsapi.org/v2/everything" (news_params api_key query) with
  | Raise _ => []
  | Ok response =>
      match raise_for_status response with
      | Raise _ => []
      | Ok _ =>
          match json response with
          | Raise _ => []
          | Ok data => match news_titles data with
                       | Ok headlines => headlines
                       | Raise _ => []
                       end
          end
      end
  end.

Definition btc_price_result (rt : runtime) (w : world) : float :=
  match kraken_query_public w "Ticker" [("pair", "XXBTZUSD")] with
  | Raise _ => float_zero
  | Ok response =>
      match py_get response "error" VNone with
      | Raise _ => float_zero
      | Ok err =>
          if py_truthy err then float_zero
          else match ticker_price rt response with
               | Ok price => price
               | Raise _ => float_zero
               end
      end
  end.

(** The lines [main] prints for an exception that reaches its handlers. *)
Definition error_lines (e : exn) : list string :=
  match e with
  | FileNotFoundError msg =>
      [nl ++ "ERROR CRÍTICO: " ++ msg;
       "Por favor, asegúrate de que 'config.ini' existe en el mismo directorio.";
       "Puedes crearlo a partir de 'config.ini.example'."]
  | NoSectionError section => msg_missing_section section
  | NoOptionError opt section => msg_missing_option opt section
  | _ =>
      [nl ++ "HA OCURRIDO UN ERROR INESPERADO:";
       "Tipo de Error: " ++ exn_type_name e;
       "Mensaje: " ++ exn_str e;
       "La ejecución del programa se ha detenido."]
  end.


(** The settings [main] extracts from a configuration. *)
Definition settings_loaded (rt : runtime) (w : world) (host : string)
    (port client_id : Z) (api_key : string) : Prop :=
  exists config,
    config_read w "config.ini" = Some (Ok config) /\
    config_get rt config "IBKR" "HOST" = Ok host /\
    config_getint rt config "IBKR" "PORT" = Ok port /\
    config_getint rt config "IBKR" "CLIENT_ID" = Ok client_id /\
    config_get rt config "NEWS_API" "API_KEY" = Ok api_key.

(** The label on the other side of neutral. *)
Definition mirror (l : label) : label :=
  match l with
  | NEGATIVE => POSITIVE
  | NEUTRAL_NEGATIVE => NEUTRAL_POSITIVE
  | NEUTRAL => NEUTRAL
  | NEUTRAL_POSITIVE => NEUTRAL_NEGATIVE
  | POSITIVE => NEGATIVE
  end.

(** The first line [get_spy_name] prints. *)
Definition connecting_line (host : string) (port client_id : Z) : string :=
  "[IBKR]: Conectando a " ++ host ++ ":" ++ str_of_Z port
  ++ " con ClientID " ++ str_of_Z client_id ++ "...".

(** What [analyze_headlines_sentiment] returns or raises. *)
Definition analysis_result (rt : runtime) (headlines : list pyval) : result summary :=
  match headlines with
  | [] => Ok (mkSummary float_zero [])
  | _ =>
      match analyze_loop rt headlines [] float_zero with
      | Raise e => Raise e
      | Ok (detailed_results, total_compound_score) =>
          match truediv_int total_compound_score (Z.of_nat (List.length headlines)) with
          | Raise e => Raise e
          | Ok average_compound => Ok (mkSummary average_compound detailed_results)
          end
      end
  end.

(** The line that announces the analysis of [n] headlines. *)
Definition analyzing_line (n : nat) : string :=
  "[ANALYSIS]: Analizando " ++ str_of_N (N.of_nat n) ++ " titulares...".

(** ** Sample runtime and worlds *)

Definition sample_runtime : runtime :=
  {| float_of_str := fun s =>
       if String.eqb s "67890.10000" then Some (float_lit 678901 10) else None;
     int_of_str := fun s => option_map Z.of_uint (NilEmpty.uint_of_string s);
     str_of_float := format_f 1;
     str_of_val := fun v => match v with VStr s => s | _ => py_type_name v end;
     interpolation := fun _ _ _ value => Ok value;
     vader := fun s =>
       if String.eqb s "Markets rally on strong earnings"
       then mkScores float_zero (float_lit 5 10) (float_lit 5 10) (float_lit 6 10)
       else mkScores (float_lit 4 10) (float_lit 6 10) float_zero (float_neg (float_lit 4 10));
     vader_other := fun v => TypeError (repr_str (py_type_name v) ++ " object is not iterable")
  |}.

Definition sample_config : ConfigParser :=
  {| defaults := [];
     sections := [("IBKR", [("host", "127.0.0.1"); ("port", "7497"); ("client_id", "1")]);
                  ("NEWS_API", [("api_key", "k3y")])] |}.

Definition sample_ticker : pyval :=
  VDict [("error", VList []);
         ("result", VDict [("XXBTZUSD", VDict [("c", VList [VStr "67890.10000"; VStr "0.001"])])])].

Definition sample_news : pyval :=
  VDict [("status", VStr "ok");
         ("articles", VList [VDict [("title", VStr "Markets rally on strong earnings")];
                             VDict [("title", VStr "Recession fears grow")]])].

Definition sample_world : world :=
  {| utc_now := mkDatetime 2025 1 2 3 4 5;
     config_read := fun f => if String.eqb f "config.ini" then Some (Ok sample_config) else None;
     ib_connect := fun _ _ _ => (Ok tt, true);
     ib_reqContractDetails := (Ok [mkContractDetails "SPDR S&P 500 ETF TRUST"], true);
     kraken_query_public := fun _ _ => Ok sample_ticker;
     requests_get := fun u _ => Ok (mkResponse 200 "OK" u (Ok sample_news)) |}.

Definition with_config (cr : option (result ConfigParser)) (w : world) : world :=
  {| utc_now := utc_now w;
     config_read := fun _ => cr;
     ib_connect := ib_connect w;
     ib_reqContractDetails := ib_reqContractDetails w;
     kraken_query_public := kraken_query_public w;
     requests_get := requests_get w |}.

Definition with_ib (c : result unit * bool) (d : result (list ContractDetails) * bool)
    (w : world) : world :=
  {| utc_now := utc_now w;
     config_read := config_read w;
     ib_connect := fun _ _ _ => c;
     ib_reqContractDetails := d;
     kraken_query_public := kraken_query_public w;
     requests_get := requests_get w |}.

Definition with_kraken (r : result pyval) (w : world) : world :=
  {| utc_now := utc_now w;
     config_read := config_read w;
     ib_connect := ib_connect w;
     ib_reqContractDetails := ib_reqContractDetails w;
     kraken_query_public := fun _ _ => r;
     requests_get := requests_get w |}.

Definition with_news (r : result Response) (w : world) : world :=
  {| utc_now := utc_now w;
     config_read := config_read w;
     ib_connect := ib_connect w;
     ib_reqContractDetails := ib_reqContractDetails w;
     kraken_query_public := kraken_query_public w;
     requests_get := fun _ _ => r |}.

(** Configurations without the news section and without the port. *)
Definition config_without_news : ConfigParser :=
  {| defaults := [];
     sections := [("IBKR", [("host", "127.0.0.1"); ("port", "7497"); ("client_id", "1")])] |}.

Definition config_without_port : ConfigParser :=
  {| defaults := [];
     sections := [("IBKR", [("host", "127.0.0.1"); ("client_id", "1")]);
                  ("NEWS_API", [("api_key", "k3y")])] |}.

(** The news service answers with an article whose title is null. *)
Definition null_title_world : world :=
  with_news (Ok (mkResponse 200 "OK" "https://newsapi.org/v2/everything"
                   (Ok (VDict [("articles",
                                VList [VDict [("title", VStr "Stocks slip")];
                                       VDict [("title", VNone)]])]))))
            sample_world.

(** The news service answers with an article that has no title. *)
Definition untitled_article_world : world :=
  with_news (Ok (mkResponse 200 "OK" "https://newsapi.org/v2/everything"
                   (Ok (VDict [("articles",
                                VList [VDict [("title", VStr "Stocks slip")];
                                       VDict [("url", VStr "u")]])]))))
            sample_world.

(** The news service and the ticker out of reach. *)
Definition news_down_world : world :=
  with_news (Raise (RequestException "ConnectionError" "refused")) sample_world.

Definition kraken_down_world : world :=
  with_kraken (Raise (OtherException "ConnectionError" "timed out")) sample_world.

(** The broker refuses the connection. *)
Definition refused_world : world :=
  with_ib (Raise (ConnectionRefusedError "[Errno 111] Connect call failed"), false)
          (Raise (OtherException "ConnectionError" "Not connected"), false)
          sample_world.

(** * Properties *)

(** ** The order of binary64 numbers *)

Lemma SFcompare_antisym (x y : float) :
  SFcompare y x = option_map CompOpp (SFcompare x y).
Proof.
  destruct x as [sx|sx| |sx mx ex], y as [sy|sy| |sy my ey]; simpl;
    try destruct sx; try destruct sy; try reflexivity;
    rewrite (Z.compare_antisym ex ey);
    destruct (ex ?= ey); simpl; try reflexivity;
    change (Pos.compare_cont Eq) with Pos.compare;
    rewrite (Pos.compare_antisym mx my);
    destruct (Pos.compare mx my); reflexivity.
Qed.

Ltac split_compare :=
  repeat match goal with
  | H : context [Z.compare ?a ?b] |- _ => destruct (Z.compare_spec a b)
  | |- context [Z.compare ?a ?b] => destruct (Z.compare_spec a b)
  | H : context [Pos.compare ?a ?b] |- _ => destruct (Pos.compare_spec a b)
  | |- context [Pos.compare ?a ?b] => destruct (Pos.compare_spec a b)
  end.

Ltac float_order :=
  unfold float_gt, float_lt, float_le, SFltb, SFleb, SFcompare;
  change (Pos.compare_cont Eq) with Pos.compare;
  intros;
  repeat match goal with
  | s : bool |- _ => destruct s
  end;
  try discriminate; try reflexivity;
  split_compare; simpl in *; try discriminate; try reflexivity; try lia.

Lemma float_lt_le_trans (a b c : float) :
  float_lt a b = true -> float_le b c = true -> float_lt a c = true.
Proof.
  destruct a as [sa|sa| |sa ma ea], b as [sb|sb| |sb mb eb], c as [sc|sc| |sc mc ec];
    float_order.
Qed.

Lemma float_le_lt_trans (a b c : float) :
  float_le a b = true -> float_lt b c = true -> float_lt a c = true.
Proof.
  destruct a as [sa|sa| |sa ma ea], b as [sb|sb| |sb mb eb], c as [sc|sc| |sc mc ec];
    float_order.
Qed.

Lemma float_le_not_lt (x y : float) :
  float_le x y = true -> float_lt y x = false.
Proof.
  unfold float_le, float_lt, SFleb, SFltb.
  rewrite (SFcompare_antisym x y).
  destruct (SFcompare x y) as [[ | | ]|]; simpl; congruence.
Qed.

Lemma float_lt_not_lt (x y : float) :
  float_lt x y = true -> float_lt y x = false.
Proof.
  unfold float_lt, SFltb.
  rewrite (SFcompare_antisym x y).
  destruct (SFcompare x y) as [[ | | ]|]; simpl; congruence.
Qed.

Lemma float_not_lt_le (x y : float) :
  is_nan x = false -> is_nan y = false ->
  float_lt x y = false -> float_le y x = true.
Proof.
  unfold float_le, float_lt, SFleb, SFltb.
  rewrite (SFcompare_antisym x y).
  intros Hx Hy.
  destruct (SFcompare x y) as [[ | | ]|] eqn:E; simpl; try congruence.
  destruct x, y; simpl in *; discriminate.
Qed.

Lemma float_lt_not_nan (x y : float) :
  float_lt x y = true -> is_nan x = false /\ is_nan y = false.
Proof. destruct x, y; simpl; try discriminate; auto. Qed.

(** ** main.py: the sentiment labeler *)

Lemma get_sentiment_label_eq (score : float) :
  get_sentiment_label score =
  if float_gt score t_high then "POSITIVO"
  else if float_gt score t_low then "NEUTRAL-POSITIVO"
  else if float_lt score (float_neg t_high) then "NEGATIVO"
  else if float_lt score (float_neg t_low) then "NEUTRAL-NEGATIVO"
  else "NEUTRAL".
Proof. reflexivity. Qed.

Lemma thresholds_ordered :
  float_lt (float_neg t_high) (float_neg t_low) = true /\
  float_lt (float_neg t_low) t_low = true /\
  float_lt t_low t_high = true.
Proof. repeat split; vm_compute; reflexivity. Qed.

Lemma label_table_sound (score : float) (l : label) :
  label_table score l -> get_sentiment_label score = label_text l.
Proof.
  destruct thresholds_ordered as (Hnn & Hn0 & Hlh).
  intros H; rewrite get_sentiment_label_eq; unfold float_gt in *.
  destruct H as [Hp | Hl Hh | Hn | Hh Hl | Hl Hh]; unfold float_gt in *.
  - rewrite Hp; reflexivity.
  - rewrite (float_le_not_lt _ _ Hh), Hl; reflexivity.
  - assert (Hl : float_lt score t_low = true).
    { apply float_lt_le_trans with (b := float_neg t_high); [exact Hn|].
      vm_compute; reflexivity. }
    assert (Hh : float_lt score t_high = true).
    { apply float_lt_le_trans with (b := t_low); [exact Hl|]. vm_compute; reflexivity. }
    rewrite (float_lt_not_lt _ _ Hh), (float_lt_not_lt _ _ Hl), Hn; reflexivity.
  - assert (Hl' : float_lt score t_low = true).
    { apply float_lt_le_trans with (b := float_neg t_low); [exact Hl|].
      vm_compute; reflexivity. }
    assert (Hh' : float_lt score t_high = true).
    { apply float_lt_le_trans with (b := t_low); [exact Hl'|]. vm_compute; reflexivity. }
    rewrite (float_lt_not_lt _ _ Hh'), (float_lt_not_lt _ _ Hl'),
      (float_le_not_lt _ _ Hh), Hl; reflexivity.
  - assert (Hh' : float_lt score t_high = true).
    { apply float_le_lt_trans with (b := t_low); assumption. }
    assert (Hn : float_lt (float_neg t_high) score = true).
    { apply float_lt_le_trans with (b := float_neg t_low); assumption. }
    rewrite (float_lt_not_lt _ _ Hh'), (float_le_not_lt _ _ Hh),
      (float_lt_not_lt _ _ Hn), (float_le_not_lt _ _ Hl); reflexivity.
Qed.

Lemma label_table_total (score : float) :
  is_nan score = false -> exists l, label_table score l.
Proof.
  intros Hs.
  destruct (float_gt score t_high) eqn:E1; [exists POSITIVE; constructor; exact E1|].
  destruct (float_gt score t_low) eqn:E2.
  { exists NEUTRAL_POSITIVE; constructor; [exact E2|].
    apply float_not_lt_le; [reflexivity | exact Hs | exact E1]. }
  destruct (float_lt score (float_neg t_high)) eqn:E3; [exists NEGATIVE; constructor; exact E3|].
  destruct (float_lt score (float_neg t_low)) eqn:E4.
  { exists NEUTRAL_NEGATIVE; constructor; [|exact E4].
    apply float_not_lt_le; [exact Hs | reflexivity | exact E3]. }
  exists NEUTRAL; constructor.
  - apply float_not_lt_le; [exact Hs | reflexivity | exact E4].
  - apply float_not_lt_le; [reflexivity | exact Hs | exact E2].
Qed.

Lemma label_text_inj (l1 l2 : label) : label_text l1 = label_text l2 -> l1 = l2.
Proof. destruct l1, l2; simpl; intros H; try reflexivity; discriminate H. Qed.

(** C2: the labeler follows the five rows of the table, whose rows cover
    every score that is a number; at the thresholds, 0.3 and -0.3 fall in the
    inner classes and 0.05 and -0.05 are neutral.  The texts are those the
    program prints for the five categories. *)
Theorem get_sentiment_label_table :
  (forall score l, label_table score l -> get_sentiment_label score = label_text l) /\
  (forall score, is_nan score = false -> exists l, label_table score l) /\
  get_sentiment_label (float_lit 3 10) = "NEUTRAL-POSITIVO" /\
  get_sentiment_label (float_lit 3000001 10000000) = "POSITIVO" /\
  get_sentiment_label (float_neg (float_lit 3 10)) = "NEUTRAL-NEGATIVO" /\
  get_sentiment_label (float_lit 5 100) = "NEUTRAL" /\
  get_sentiment_label (float_neg (float_lit 5 100)) = "NEUTRAL".
Proof.
  split; [exact label_table_sound|].
  split; [exact label_table_total|].
  repeat split; vm_compute; reflexivity.
Qed.

Lemma get_sentiment_label_table_witness :
  label_table (float_lit 2 10) NEUTRAL_POSITIVE /\
  get_sentiment_label (float_lit 2 10) = "NEUTRAL-POSITIVO" /\
  exists l, label_table (float_neg (float_lit 7 10)) l.
Proof.
  assert (H : label_table (float_lit 2 10) NEUTRAL_POSITIVE)
    by (apply row_neutral_positive; vm_compute; reflexivity).
  split; [exact H|].
  split; [exact (proj1 get_sentiment_label_table _ _ H)|].
  apply (proj1 (proj2 get_sentiment_label_table)). reflexivity.
Defined.

Ltac ranked := simpl; repeat split; lia.

(** C10: the labeler is monotone from the order of the scores to the order
    NEGATIVE < NEUTRAL-NEGATIVE < NEUTRAL < NEUTRAL-POSITIVE < POSITIVE. *)
Theorem get_sentiment_label_monotone (s1 s2 : float) :
  float_le s1 s2 = true ->
  exists l1 l2,
    get_sentiment_label s1 = label_text l1 /\
    get_sentiment_label s2 = label_text l2 /\
    (label_rank l1 <= label_rank l2)%nat.
Proof.
  intros Hle.
  assert (H1 : float_lt t_high s1 = true -> float_lt t_high s2 = true)
    by (intros H; exact (float_lt_le_trans _ _ _ H Hle)).
  assert (H2 : float_lt t_low s1 = true -> float_lt t_low s2 = true)
    by (intros H; exact (float_lt_le_trans _ _ _ H Hle)).
  assert (H3 : float_lt s2 (float_neg t_high) = true ->
               float_lt s1 (float_neg t_high) = true)
    by (intros H; exact (float_le_lt_trans _ _ _ Hle H)).
  assert (H4 : float_lt s2 (float_neg t_low) = true ->
               float_lt s1 (float_neg t_low) = true)
    by (intros H; exact (float_le_lt_trans _ _ _ Hle H)).
  rewrite !get_sentiment_label_eq; unfold float_gt.
  destruct (float_lt t_high s1) eqn:A1;
    [rewrite (H1 eq_refl); exists POSITIVE, POSITIVE; ranked|].
  destruct (float_lt t_high s2) eqn:B1.
  { destruct (float_lt t_low s1); [exists NEUTRAL_POSITIVE, POSITIVE; ranked|].
    destruct (float_lt s1 (float_neg t_high)); [exists NEGATIVE, POSITIVE; ranked|].
    destruct (float_lt s1 (float_neg t_low));
      [exists NEUTRAL_NEGATIVE, POSITIVE | exists NEUTRAL, POSITIVE]; ranked. }
  destruct (float_lt t_low s1) eqn:A2;
    [rewrite (H2 eq_refl); exists NEUTRAL_POSITIVE, NEUTRAL_POSITIVE; ranked|].
  destruct (float_lt t_low s2) eqn:B2.
  { destruct (float_lt s1 (float_neg t_high)); [exists NEGATIVE, NEUTRAL_POSITIVE; ranked|].
    destruct (float_lt s1 (float_neg t_low));
      [exists NEUTRAL_NEGATIVE, NEUTRAL_POSITIVE | exists NEUTRAL, NEUTRAL_POSITIVE];
      ranked. }
  destruct (float_lt s2 (float_neg t_high)) eqn:B3;
    [rewrite (H3 eq_refl); exists NEGATIVE, NEGATIVE; ranked|].
  destruct (float_lt s1 (float_neg t_high)) eqn:A3.
  { destruct (float_lt s2 (float_neg t_low));
      [exists NEGATIVE, NEUTRAL_NEGATIVE | exists NEGATIVE, NEUTRAL]; ranked. }
  destruct (float_lt s2 (float_neg t_low)) eqn:B4;
    [rewrite (H4 eq_refl); exists NEUTRAL_NEGATIVE, NEUTRAL_NEGATIVE; ranked|].
  destruct (float_lt s1 (float_neg t_low));
    [exists NEUTRAL_NEGATIVE, NEUTRAL | exists NEUTRAL, NEUTRAL]; ranked.
Qed.

Lemma get_sentiment_label_monotone_witness :
  float_le (float_neg (float_lit 1 10)) (float_lit 4 10) = true /\
  exists l1 l2,
    get_sentiment_label (float_neg (float_lit 1 10)) = label_text l1 /\
    get_sentiment_label (float_lit 4 10) = label_text l2 /\
    (label_rank l1 <= label_rank l2)%nat.
Proof.
  split; [vm_compute; reflexivity|].
  apply get_sentiment_label_monotone. vm_compute. reflexivity.
Defined.

(** ** analysis.py: the aggregation of the headline scores *)

Lemma analyze_loop_strings (rt : runtime) (hs : list string) :
  forall (acc : list detail) (total : float),
    analyze_loop rt (map VStr hs) acc total =
    Ok ((acc ++ map (detail_of rt) hs)%list,
        fold_left float_add (map (fun h => compound (vader rt h)) hs) total).
Proof.
  induction hs as [|h hs IH]; intros acc total; simpl.
  - rewrite app_nil_r; reflexivity.
  - rewrite IH, <- app_assoc; reflexivity.
Qed.

Lemma truediv_int_pos (x : float) (n : nat) :
  truediv_int x (Z.of_nat (S n)) = Ok (float_div x (float_of_Z (Z.of_nat (S n)))).
Proof.
  unfold truediv_int.
  destruct (Z.eqb_spec (Z.of_nat (S n)) 0) as [E|_]; [lia | reflexivity].
Qed.

(** C1: on a non-empty list of headline strings the summary's average is the
    unweighted mean of the compound scores the polarity model gives to the
    headlines, and the details are one entry per headline, in input order. *)
Theorem analyze_headlines_sentiment_mean (rt : runtime) (hs : list string) (s : state) :
  hs <> [] ->
  exists sm,
    run (analyze_headlines_sentiment rt (map VStr hs)) s = Ok sm /\
    average_sentiment_compound sm =
      arithmetic_mean (map (fun h => compound (vader rt h)) hs) /\
    List.length (details sm) = List.length hs /\
    details sm = map (fun h => mkDetail (VStr h) (vader rt h)) hs /\
    map headline (details sm) = map VStr hs.
Proof.
  intros Hne.
  destruct hs as [|h hs]; [congruence|].
  exists (mkSummary
            (arithmetic_mean (map (fun h => compound (vader rt h)) (h :: hs)))
            (map (detail_of rt) (h :: hs))).
  split.
  - unfold run, analyze_headlines_sentiment.
    change (map VStr (h :: hs)) with (VStr h :: map VStr hs).
    cbv beta iota.
    change (VStr h :: map VStr hs) with (map VStr (h :: hs)).
    unfold bind, print, emit, lift, ret.
    rewrite analyze_loop_strings.
    rewrite length_map.
    change (List.length (h :: hs)) with (S (List.length hs)).
    rewrite truediv_int_pos.
    unfold arithmetic_mean, float_sum.
    rewrite length_map.
    reflexivity.
  - cbn [average_sentiment_compound details].
    repeat split.
    + rewrite length_map; reflexivity.
    + rewrite map_map; reflexivity.
Qed.

Lemma analyze_headlines_sentiment_mean_witness :
  exists sm,
    run (analyze_headlines_sentiment sample_runtime
           (map VStr ["Markets rally on strong earnings"; "Recession fears grow"]))
        initial_state = Ok sm /\
    format_f 4 (average_sentiment_compound sm) = "0.1000" /\
    List.length (details sm) = 2%nat.
Proof.
  destruct (analyze_headlines_sentiment_mean sample_runtime
              ["Markets rally on strong earnings"; "Recession fears grow"]
              initial_state) as (sm & Hrun & Havg & Hlen & _).
  - discriminate.
  - exists sm. split; [exact Hrun|]. split; [|exact Hlen].
    rewrite Havg. vm_compute. reflexivity.
Defined.

(** The division the empty case must not reach. *)
Lemma truediv_int_zero (x : float) :
  truediv_int x (Z.of_nat (List.length (@nil pyval))) =
  Raise (OtherException "ZeroDivisionError" "float division by zero").
Proof. reflexivity. Qed.

(** C3: on the empty list the summary has average 0.0 and no details, and
    nothing is raised: the function returns before the division. *)
Theorem analyze_headlines_sentiment_empty (rt : runtime) (s : state) :
  run (analyze_headlines_sentiment rt []) s =
    Ok {| average_sentiment_compound := float_zero; details := [] |}.
Proof. reflexivity. Qed.

(** ** Running the monad *)

Lemma grows_ret {A} (a : A) : grows (ret a).
Proof. intros s; exists []; unfold final; simpl; rewrite app_nil_r; reflexivity. Qed.

Lemma grows_raise {A} (e : exn) : grows (@raise A e).
Proof. intros s; exists []; unfold final; simpl; rewrite app_nil_r; reflexivity. Qed.

Lemma grows_lift {A} (r : result A) : grows (lift r).
Proof. intros s; exists []; unfold final; simpl; rewrite app_nil_r; reflexivity. Qed.

Lemma grows_emit (ev : event) : grows (emit ev).
Proof. intros s; exists [ev]; reflexivity. Qed.

Lemma grows_print (line : string) : grows (print line).
Proof. apply grows_emit. Qed.

Lemma grows_set_connected (b : bool) : grows (set_connected b).
Proof. intros s; exists []; unfold final; simpl; rewrite app_nil_r; reflexivity. Qed.

Lemma grows_isConnected : grows isConnected.
Proof. intros s; exists []; unfold final; simpl; rewrite app_nil_r; reflexivity. Qed.

Lemma grows_bind {A B} (m : M A) (k : A -> M B) :
  grows m -> (forall a, grows (k a)) -> grows (bind m k).
Proof.
  intros Hm Hk s. destruct (Hm s) as [e1 H1].
  unfold final, bind in *. destruct (m s) as [[a|e] s1]; simpl in *.
  - destruct (Hk a s1) as [e2 H2]. exists (e1 ++ e2)%list.
    unfold final in H2. rewrite H2, H1, app_assoc. reflexivity.
  - exists e1. exact H1.
Qed.

Lemma grows_try_except {A} (body : M A) (handler : exn -> M A) :
  grows body -> (forall e, grows (handler e)) -> grows (try_except body handler).
Proof.
  intros Hm Hk s. destruct (Hm s) as [e1 H1].
  unfold final, try_except in *. destruct (body s) as [[a|e] s1]; simpl in *.
  - exists e1. exact H1.
  - destruct (Hk e s1) as [e2 H2]. exists (e1 ++ e2)%list.
    unfold final in H2. rewrite H2, H1, app_assoc. reflexivity.
Qed.

Lemma grows_try_finally {A} (body : M A) (cleanup : M unit) :
  grows body -> grows cleanup -> grows (try_finally body cleanup).
Proof.
  intros Hm Hk s. destruct (Hm s) as [e1 H1]. unfold final, try_finally in *.
  destruct (body s) as [r s1]; simpl in *.
  destruct (Hk s1) as [e2 H2]. unfold final in H2.
  exists (e1 ++ e2)%list.
  destruct (cleanup s1) as [[u|e] s2]; simpl in *; rewrite H2, H1, app_assoc; reflexivity.
Qed.

Create HintDb grows.

#[local] Hint Resolve grows_ret grows_raise grows_lift grows_emit grows_print
  grows_set_connected grows_isConnected : grows.

(** Splits a computation along its binds, handlers and case analyses. *)
Ltac grows_step :=
  match goal with
  | |- grows (bind _ _) => apply grows_bind; [|intros ?]
  | |- grows (try_except _ _) => apply grows_try_except; [|intros ?]
  | |- grows (try_finally _ _) => apply grows_try_finally
  | |- grows (match ?x with _ => _ end) => destruct x
  | |- grows (if ?x then _ else _) => destruct x
  | |- grows (let '(_, _) := ?x in _) => destruct x
  | |- grows _ => solve [auto with grows]
  end.

Ltac grows_tac := repeat grows_step.

(** Case analysis on the results a computation depends on. *)
Ltac destruct_results :=
  repeat match goal with
  | |- context [match ?x with Ok _ => _ | Raise _ => _ end] => destruct x eqn:?
  | |- context [if ?x then _ else _] => destruct x eqn:?
  end.

Lemma grows_analyze_headlines_sentiment (rt : runtime) (hs : list pyval) :
  grows (analyze_headlines_sentiment rt hs).
Proof. unfold analyze_headlines_sentiment. grows_tac. Qed.

Lemma grows_get_btc_price (rt : runtime) (w : world) : grows (get_btc_price rt w).
Proof. unfold get_btc_price. grows_tac. Qed.

Lemma grows_get_spy_name (w : world) (host : string) (port client_id : Z) :
  grows (get_spy_name w host port client_id).
Proof. unfold get_spy_name, connect, reqContractDetails, disconnect. grows_tac. Qed.

Lemma grows_get_market_news (w : world) (api_key query : string) :
  grows (get_market_news w api_key query).
Proof. unfold get_market_news. grows_tac. Qed.

Lemma grows_display_report (w : world) (name : string) (score price : float) :
  grows (display_report w name score price).
Proof. unfold display_report. grows_tac. Qed.

#[local] Hint Resolve grows_analyze_headlines_sentiment grows_get_btc_price
  grows_get_spy_name grows_get_market_news grows_display_report : grows.

Lemma grows_main (rt : runtime) (w : world) : grows (main rt w).
Proof. unfold main, load_config. grows_tac. Qed.

(** ** connectors.py: the crypto price *)

Lemma get_btc_price_run (rt : runtime) (w : world) (s : state) :
  run (get_btc_price rt w) s =
  Ok match kraken_query_public w "Ticker" [("pair", "XXBTZUSD")] with
     | Raise _ => float_zero
     | Ok response =>
         match py_get response "error" VNone with
         | Raise _ => float_zero
         | Ok err =>
             if py_truthy err then float_zero
             else match ticker_price rt response with
                  | Ok price => price
                  | Raise _ => float_zero
                  end
         end
     end.
Proof.
  unfold run, get_btc_price, ticker_price, try_except, bind, lift, ret, print, emit.
  cbn [fst snd].
  destruct_results; reflexivity.
Qed.

(** C5: the price fetch returns the price read from the ticker, and 0.0 when
    the query raises, when the response reports an error, and when the
    response does not have the expected shape; nothing is raised. *)
Theorem get_btc_price_never_raises (rt : runtime) (w : world) (s : state) :
  (exists price, run (get_btc_price rt w) s = Ok price) /\
  (forall e, kraken_query_public w "Ticker" [("pair", "XXBTZUSD")] = Raise e ->
     run (get_btc_price rt w) s = Ok float_zero) /\
  (forall response,
     kraken_query_public w "Ticker" [("pair", "XXBTZUSD")] = Ok response ->
     (forall e, py_get response "error" VNone = Raise e ->
        run (get_btc_price rt w) s = Ok float_zero) /\
     (forall err, py_get response "error" VNone = Ok err ->
        (py_truthy err = true -> run (get_btc_price rt w) s = Ok float_zero) /\
        (py_truthy err = false ->
           (forall e, ticker_price rt response = Raise e ->
              run (get_btc_price rt w) s = Ok float_zero) /\
           (forall price, ticker_price rt response = Ok price ->
              run (get_btc_price rt w) s = Ok price)))).
Proof.
  rewrite get_btc_price_run.
  split; [eexists; reflexivity|].
  split; [intros e ->; reflexivity|].
  intros response ->.
  split; [intros e ->; reflexivity|].
  intros err ->.
  split; [intros ->; reflexivity|].
  intros ->.
  split; [intros e ->; reflexivity | intros price ->; reflexivity].
Qed.

Lemma get_btc_price_never_raises_witness :
  run (get_btc_price sample_runtime
         (with_kraken (Raise (OtherException "ConnectionError" "Max retries exceeded"))
            sample_world)) initial_state = Ok float_zero /\
  run (get_btc_price sample_runtime
         (with_kraken (Ok (VDict [("error", VList [VStr "EQuery:Unknown asset pair"])]))
            sample_world)) initial_state = Ok float_zero /\
  run (get_btc_price sample_runtime (with_kraken (Ok (VDict [("error", VList [])]))
         sample_world)) initial_state = Ok float_zero /\
  run (get_btc_price sample_runtime sample_world) initial_state =
    Ok (float_lit 678901 10).
Proof.
  split; [|split; [|split]].
  - apply (proj1 (proj2 (get_btc_price_never_raises sample_runtime _ initial_state))
             (OtherException "ConnectionError" "Max retries exceeded")).
    reflexivity.
  - destruct (proj2 (proj2 (get_btc_price_never_raises sample_runtime
               (with_kraken (Ok (VDict [("error", VList [VStr "EQuery:Unknown asset pair"])]))
                  sample_world) initial_state)) _ eq_refl) as [_ H].
    apply (proj1 (H _ eq_refl)). reflexivity.
  - destruct (proj2 (proj2 (get_btc_price_never_raises sample_runtime
               (with_kraken (Ok (VDict [("error", VList [])])) sample_world)
               initial_state)) _ eq_refl) as [_ H].
    destruct (proj2 (H _ eq_refl) eq_refl) as [H' _].
    apply (H' (KeyError "'result'")). reflexivity.
  - destruct (proj2 (proj2 (get_btc_price_never_raises sample_runtime sample_world
               initial_state)) _ eq_refl) as [_ H].
    destruct (proj2 (H _ eq_refl) eq_refl) as [_ H'].
    apply H'. vm_compute. reflexivity.
Defined.

(** ** connectors.py: the news headlines *)

Lemma get_market_news_run (w : world) (api_key query : string) (s : state) :
  run (get_market_news w api_key query) s =
  Ok match requests_get w "https://newsapi.org/v2/everything"
             (news_params api_key query) with
     | Raise _ => []
     | Ok response =>
         match raise_for_status response with
         | Raise _ => []
         | Ok _ =>
             match json response with
             | Raise _ => []
             | Ok data =>
                 match news_titles data with
                 | Ok headlines => headlines
                 | Raise _ => []
                 end
             end
         end
     end.
Proof.
  unfold run, get_market_news, news_titles, news_params,
    try_except, bind, lift, ret, print, emit.
  cbn [fst snd].
  destruct_results; try reflexivity;
    match goal with
    | |- context [match ?e with FileNotFoundError _ => _ | _ => _ end] =>
        destruct e; reflexivity
    end.
Qed.

(** C6: the news fetch returns the titles of the articles, and the empty
    list when the request raises, when the status is an HTTP error, when the
    body does not decode and when the document does not have the expected
    shape; nothing is raised. *)
Theorem get_market_news_never_raises (w : world) (api_key query : string) (s : state) :
  (exists headlines, run (get_market_news w api_key query) s = Ok headlines) /\
  (forall e, requests_get w "https://newsapi.org/v2/everything"
               (news_params api_key query) = Raise e ->
     run (get_market_news w api_key query) s = Ok []) /\
  (forall response,
     requests_get w "https://newsapi.org/v2/everything" (news_params api_key query)
       = Ok response ->
     (forall e, raise_for_status response = Raise e ->
        run (get_market_news w api_key query) s = Ok []) /\
     (raise_for_status response = Ok tt ->
        (forall e, json response = Raise e ->
           run (get_market_news w api_key query) s = Ok []) /\
        (forall data, json response = Ok data ->
           (forall e, news_titles data = Raise e ->
              run (get_market_news w api_key query) s = Ok []) /\
           (forall headlines, news_titles data = Ok headlines ->
              run (get_market_news w api_key query) s = Ok headlines)))).
Proof.
  rewrite get_market_news_run.
  split; [eexists; reflexivity|].
  split; [intros e ->; reflexivity|].
  intros response ->.
  split; [intros e ->; reflexivity|].
  intros ->.
  split; [intros e ->; reflexivity|].
  intros data ->.
  split; [intros e ->; reflexivity | intros headlines ->; reflexivity].
Qed.

Lemma get_market_news_never_raises_witness :
  run (get_market_news
         (with_news (Raise (RequestException "ConnectionError" "Connection aborted"))
            sample_world) "k3y" "SPY") initial_state = Ok [] /\
  run (get_market_news
         (with_news (Ok (mkResponse 401 "Unauthorized" "https://newsapi.org/v2/everything"
                           (Ok (VDict [("status", VStr "error")])))) sample_world)
         "k3y" "SPY") initial_state = Ok [] /\
  run (get_market_news
         (with_news (Ok (mkResponse 200 "OK" "https://newsapi.org/v2/everything"
                           (Ok (VDict [("articles", VList [VDict [("url", VStr "u")]])]))))
            sample_world) "k3y" "SPY") initial_state = Ok [] /\
  run (get_market_news sample_world "k3y" "SPY") initial_state =
    Ok [VStr "Markets rally on strong earnings"; VStr "Recession fears grow"].
Proof.
  split; [|split; [|split]].
  - apply (proj1 (proj2 (get_market_news_never_raises _ "k3y" "SPY" initial_state))
             (RequestException "ConnectionError" "Connection aborted")).
    reflexivity.
  - destruct (proj2 (proj2 (get_market_news_never_raises
               (with_news (Ok (mkResponse 401 "Unauthorized"
                                 "https://newsapi.org/v2/everything"
                                 (Ok (VDict [("status", VStr "error")])))) sample_world)
               "k3y" "SPY" initial_state)) _ eq_refl) as [H _].
    eapply H. vm_compute. reflexivity.
  - destruct (proj2 (proj2 (get_market_news_never_raises
               (with_news (Ok (mkResponse 200 "OK" "https://newsapi.org/v2/everything"
                                 (Ok (VDict [("articles", VList [VDict [("url", VStr "u")]])]))))
                  sample_world)
               "k3y" "SPY" initial_state)) _ eq_refl) as [_ H].
    destruct (H eq_refl) as [_ H1].
    destruct (H1 _ eq_refl) as [H2 _].
    apply (H2 (KeyError "'title'")). reflexivity.
  - destruct (proj2 (proj2 (get_market_news_never_raises sample_world
               "k3y" "SPY" initial_state)) _ eq_refl) as [_ H].
    destruct (H eq_refl) as [_ H1].
    destruct (H1 _ eq_refl) as [_ H2].
    apply H2. reflexivity.
Defined.

(** ** connectors.py: the reference asset *)

Ltac run_spy_name w host port client_id :=
  unfold run, final, get_spy_name, connect, reqContractDetails, disconnect,
    try_finally, try_except, bind, lift, ret, print, emit, set_connected, isConnected;
  cbn [fst snd trace ib_connected];
  destruct (ib_connect w host port client_id) as [[[]|e1] c1];
  destruct (ib_reqContractDetails w) as [[[|d ds]|e2] c2];
  cbn [fst snd trace ib_connected];
  try (destruct e1); try (destruct e2);
  cbn [fst snd trace ib_connected];
  try (destruct c1); try (destruct c2);
  cbn [fst snd trace ib_connected].

Lemma get_spy_name_run (w : world) (host : string) (port client_id : Z) (s : state) :
  run (get_spy_name w host port client_id) s =
  Ok match fst (ib_connect w host port client_id) with
     | Raise _ => "Desconocido"
     | Ok _ =>
         match fst (ib_reqContractDetails w) with
         | Raise _ => "Desconocido"
         | Ok [] => "Desconocido"
         | Ok (first :: _) => longName first
         end
     end.
Proof. run_spy_name w host port client_id; reflexivity. Qed.

Lemma get_spy_name_disconnected (w : world) (host : string) (port client_id : Z)
    (s : state) :
  ib_connected (final (get_spy_name w host port client_id) s) = false.
Proof. run_spy_name w host port client_id; reflexivity. Qed.

Lemma get_spy_name_disconnects (w : world) (host : string) (port client_id : Z)
    (s : state) :
  holds_connection w host port client_id = true ->
  exists evs,
    trace (final (get_spy_name w host port client_id) s) =
    (trace s ++ evs ++ [Print "[IBKR]: Desconectando sesión."; IBDisconnect])%list.
Proof.
  unfold holds_connection.
  run_spy_name w host port client_id; intros H; try discriminate H;
    rewrite <- ?app_assoc; cbn [app];
    match goal with
    | |- exists evs, (?t ++ ?l)%list = _ =>
        exists (removelast (removelast l)); apply (f_equal (app t))
    end;
    cbn [removelast app]; reflexivity.
Qed.

(** C7: whatever happens in the call, the broker client is disconnected when
    [get_spy_name] returns, and a connection still held when the [try] block
    is left is closed by a disconnect, the last thing the call does. *)
Theorem get_spy_name_releases_connection (w : world) (host : string)
    (port client_id : Z) (s : state) :
  (exists name, run (get_spy_name w host port client_id) s = Ok name) /\
  ib_connected (final (get_spy_name w host port client_id) s) = false /\
  (holds_connection w host port client_id = true ->
   exists evs,
     trace (final (get_spy_name w host port client_id) s) =
     (trace s ++ evs ++ [Print "[IBKR]: Desconectando sesión."; IBDisconnect])%list).
Proof.
  split; [rewrite get_spy_name_run; eexists; reflexivity|].
  split; [apply get_spy_name_disconnected | apply get_spy_name_disconnects].
Qed.

Lemma get_spy_name_releases_connection_witness :
  holds_connection sample_world "127.0.0.1" 7497 1 = true /\
  ib_connected (final (get_spy_name sample_world "127.0.0.1" 7497 1) initial_state)
    = false /\
  exists evs,
    trace (final (get_spy_name sample_world "127.0.0.1" 7497 1) initial_state) =
    (trace initial_state ++ evs
       ++ [Print "[IBKR]: Desconectando sesión."; IBDisconnect])%list.
Proof.
  pose proof (get_spy_name_releases_connection sample_world "127.0.0.1" 7497 1
                initial_state) as (_ & Hoff & Htrace).
  split; [reflexivity|].
  split; [exact Hoff|].
  apply Htrace. reflexivity.
Defined.

(** ** main.py: the orchestration *)

Lemma In_final_bind_ok {A B} (m : M A) (k : A -> M B) (s s' : state) (a : A)
    (ev : event) :
  m s = (Ok a, s') ->
  In ev (trace (final (k a) s')) -> In ev (trace (final (bind m k) s)).
Proof. unfold final, bind. intros ->. exact (fun H => H). Qed.

Lemma In_final_bind_grows {A B} (m : M A) (k : A -> M B) (s : state) (ev : event) :
  In ev (trace (final m s)) -> (forall a, grows (k a)) ->
  In ev (trace (final (bind m k) s)).
Proof.
  unfold final, bind. intros Hin Hk.
  destruct (m s) as [[a|e] s1]; simpl in *; [|exact Hin].
  destruct (Hk a s1) as [evs Hevs]. unfold final in Hevs. rewrite Hevs.
  apply in_or_app; left; exact Hin.
Qed.

Lemma In_final_try_except {A} (body : M A) (handler : exn -> M A) (s : state)
    (ev : event) :
  In ev (trace (final body s)) -> (forall e, grows (handler e)) ->
  In ev (trace (final (try_except body handler) s)).
Proof.
  unfold final, try_except. intros Hin Hk.
  destruct (body s) as [[a|e] s1]; simpl in *; [exact Hin|].
  destruct (Hk e s1) as [evs Hevs]. unfold final in Hevs. rewrite Hevs.
  apply in_or_app; left; exact Hin.
Qed.

Lemma run_try_except_ok {A} (body : M A) (handler : exn -> M A) (s : state) :
  (forall e s', exists a, run (handler e) s' = Ok a) ->
  exists a, run (try_except body handler) s = Ok a.
Proof.
  unfold run, try_except. intros Hh.
  destruct (body s) as [[a|e] s1]; simpl; [exists a; reflexivity | apply Hh].
Qed.

Lemma main_never_raises (rt : runtime) (w : world) (s : state) :
  run (main rt w) s = Ok tt.
Proof.
  unfold main.
  match goal with
  | |- run (bind (print ?l) (fun _ => try_except ?b ?h)) s = _ =>
      change (run (try_except b h) (snd (print l s)) = Ok tt);
      destruct (run_try_except_ok b h (snd (print l s))) as [[] H]; [|exact H]
  end.
  intros e s'; exists tt; destruct e; reflexivity.
Qed.

Lemma get_market_news_requests (w : world) (api_key query : string) (s : state) :
  In (HttpGet "https://newsapi.org/v2/everything" (news_params api_key query))
     (trace (final (get_market_news w api_key query) s)).
Proof.
  unfold get_market_news.
  apply In_final_try_except; [|intros e; grows_tac].
  apply In_final_bind_grows; [|intros a; grows_tac].
  unfold final, emit; simpl. apply in_or_app; right; left; reflexivity.
Qed.

Lemma get_spy_name_sentinel (w : world) (host : string) (port client_id : Z)
    (s : state) :
  spy_fetch_fails w host port client_id = true ->
  run (get_spy_name w host port client_id) s = Ok "Desconocido".
Proof.
  rewrite get_spy_name_run. unfold spy_fetch_fails.
  destruct (fst (ib_connect w host port client_id)); [|reflexivity].
  destruct (fst (ib_reqContractDetails w)) as [[|d ds]|e]; try reflexivity.
  discriminate.
Qed.

Lemma main_queries_news (rt : runtime) (w : world) (config : ConfigParser)
    (host : string) (port client_id : Z) (api_key name : string) :
  config_read w "config.ini" = Some (Ok config) ->
  config_get rt config "IBKR" "HOST" = Ok host ->
  config_getint rt config "IBKR" "PORT" = Ok port ->
  config_getint rt config "IBKR" "CLIENT_ID" = Ok client_id ->
  config_get rt config "NEWS_API" "API_KEY" = Ok api_key ->
  (forall s, run (get_spy_name w host port client_id) s = Ok name) ->
  In (HttpGet "https://newsapi.org/v2/everything" (news_params api_key name))
     (trace_of (main rt w)).
Proof.
  intros Hcfg Hhost Hport Hcid Hkey Hname.
  unfold trace_of, main.
  eapply In_final_bind_ok; [reflexivity|].
  apply In_final_try_except;
    [|intros e; destruct e; grows_tac].
  eapply In_final_bind_ok; [unfold load_config; rewrite Hcfg; reflexivity|].
  eapply In_final_bind_ok; [unfold lift; rewrite Hhost; reflexivity|].
  eapply In_final_bind_ok; [unfold lift; rewrite Hport; reflexivity|].
  eapply In_final_bind_ok; [unfold lift; rewrite Hcid; reflexivity|].
  eapply In_final_bind_ok; [unfold lift; rewrite Hkey; reflexivity|].
  eapply In_final_bind_ok; [reflexivity|].
  match goal with
  | |- In _ (trace (final (bind ?m _) ?s1)) =>
      pose proof (Hname s1) as Hn; unfold run in Hn;
      destruct (m s1) as [r s2] eqn:E; simpl in Hn; subst r
  end.
  eapply In_final_bind_ok; [exact E|].
  eapply In_final_bind_ok; [reflexivity|].
  apply In_final_bind_grows; [apply get_market_news_requests|].
  intros headlines. grows_tac.
Qed.

(** C4: when the reference-asset fetch fails, by a refused connection, any
    other exception or an empty list of contract details, [get_spy_name]
    returns the sentinel ["Desconocido"], and [main], with its settings
    loaded, goes on to request the news with that string as the query and
    returns normally. *)
Theorem spy_fetch_failure_falls_back (rt : runtime) (w : world)
    (config : ConfigParser) (host : string) (port client_id : Z) (api_key : string) :
  spy_fetch_fails w host port client_id = true ->
  (forall s, run (get_spy_name w host port client_id) s = Ok "Desconocido") /\
  (config_read w "config.ini" = Some (Ok config) ->
   config_get rt config "IBKR" "HOST" = Ok host ->
   config_getint rt config "IBKR" "PORT" = Ok port ->
   config_getint rt config "IBKR" "CLIENT_ID" = Ok client_id ->
   config_get rt config "NEWS_API" "API_KEY" = Ok api_key ->
   In (HttpGet "https://newsapi.org/v2/everything" (news_params api_key "Desconocido"))
      (trace_of (main rt w)) /\
   run (main rt w) initial_state = Ok tt).
Proof.
  intros Hfail.
  assert (Hname : forall s, run (get_spy_name w host port client_id) s = Ok "Desconocido")
    by (intros s; apply get_spy_name_sentinel; exact Hfail).
  split; [exact Hname|].
  intros Hcfg Hhost Hport Hcid Hkey.
  split; [|apply main_never_raises].
  eapply main_queries_news; eassumption.
Qed.

Lemma spy_fetch_failure_falls_back_witness :
  run (get_spy_name refused_world "127.0.0.1" 7497 1) initial_state = Ok "Desconocido" /\
  In (HttpGet "https://newsapi.org/v2/everything"
        [("q", "Desconocido"); ("language", "en"); ("sortBy", "publishedAt");
         ("apiKey", "k3y")])
     (trace_of (main sample_runtime refused_world)) /\
  run (main sample_runtime refused_world) initial_state = Ok tt.
Proof.
  destruct (spy_fetch_failure_falls_back sample_runtime refused_world sample_config
              "127.0.0.1" 7497 1 "k3y" eq_refl) as [Hname Hmain].
  split; [apply Hname|].
  apply Hmain; reflexivity.
Defined.

(** The sentinel is not the string ["Unknown"]: with the connection refused
    the name returned is ["Desconocido"]. *)
Lemma spy_fetch_failure_not_Unknown :
  ~ (forall (w : world) (host : string) (port client_id : Z) (s : state),
       spy_fetch_fails w host port client_id = true ->
       run (get_spy_name w host port client_id) s = Ok "Unknown").
Proof.
  intros H.
  specialize (H refused_world "127.0.0.1" 7497 1 initial_state eq_refl).
  rewrite get_spy_name_run in H. discriminate H.
Qed.

(** *** Configuration errors *)

Lemma bind_ok_eq {A B} (m : M A) (k : A -> M B) (s s' : state) (a : A) :
  m s = (Ok a, s') -> bind m k s = k a s'.
Proof. unfold bind. intros ->. reflexivity. Qed.

Lemma bind_raise_eq {A B} (m : M A) (k : A -> M B) (s s' : state) (e : exn) :
  m s = (Raise e, s') -> bind m k s = (Raise e, s').
Proof. unfold bind. intros ->. reflexivity. Qed.

Lemma final_try_except_raise {A} (body : M A) (handler : exn -> M A)
    (s s' : state) (e : exn) :
  body s = (Raise e, s') -> final (try_except body handler) s = final (handler e) s'.
Proof. unfold final, try_except. intros ->. reflexivity. Qed.

Lemma lift_eq {A} (r r' : result A) (s : state) : r = r' -> lift r s = (r', s).
Proof. intros ->. reflexivity. Qed.


Lemma config_get_missing_section (rt : runtime) (config : ConfigParser)
    (section opt : string) :
  assoc section (sections config) = None -> section <> "DEFAULT" ->
  config_get rt config section opt = Raise (NoSectionError section).
Proof.
  intros H Hd. unfold config_get. rewrite H.
  destruct (String.eqb_spec section "DEFAULT"); [contradiction | reflexivity].
Qed.

Lemma config_get_missing_option (rt : runtime) (config : ConfigParser)
    (section opt : string) (d : list (string * string)) :
  assoc section (sections config) = Some d ->
  assoc (str_lower opt) (d ++ defaults config) = None ->
  config_get rt config section opt = Raise (NoOptionError (str_lower opt) section).
Proof. intros H Ho. unfold config_get. rewrite H, Ho. reflexivity. Qed.

Lemma config_getint_raise (rt : runtime) (config : ConfigParser)
    (section opt : string) (e : exn) :
  config_get rt config section opt = Raise e ->
  config_getint rt config section opt = Raise e.
Proof. intros H. unfold config_getint. rewrite H. reflexivity. Qed.

Lemma final_bind_ok {A B} (m : M A) (k : A -> M B) (s s' : state) (a : A) :
  m s = (Ok a, s') -> final (bind m k) s = final (k a) s'.
Proof. unfold final, bind. intros ->. reflexivity. Qed.

Lemma no_fetch_prints (lines : list string) : no_fetch (map Print lines) = true.
Proof. induction lines as [|l ls IH]; [reflexivity | exact IH]. Qed.

Lemma main_trace_handler (rt : runtime) (w : world) (e : exn) :
  forall body handler,
    main rt w = bind (print "Iniciando Project Sentinel...")
                  (fun _ => try_except body handler) ->
    body started = (Raise e, started) ->
    trace_of (main rt w) = trace (final (handler e) started).
Proof.
  intros body handler Hmain Hbody. unfold trace_of. rewrite Hmain.
  rewrite (final_bind_ok _ _ initial_state started tt) by reflexivity.
  rewrite (final_try_except_raise _ _ started started e) by exact Hbody.
  reflexivity.
Qed.

Ltac settings_step H := rewrite H; cbv beta iota.

Lemma main_trace_missing_file (rt : runtime) (w : world) :
  config_read w "config.ini" = None ->
  trace_of (main rt w) = map Print ("Iniciando Project Sentinel..." :: msg_missing_file).
Proof.
  intros H.
  erewrite main_trace_handler; [|reflexivity|].
  2:{ unfold bind, load_config. settings_step H. reflexivity. }
  reflexivity.
Qed.

Ltac settings_raise_cases Hcfg Hraise :=
  unfold bind, load_config, lift; settings_step Hcfg;
  destruct Hraise as [H1 | h H1 H2 | h p H1 H2 H3 | h p c H1 H2 H3 H4];
  [ settings_step H1
  | settings_step H1; settings_step H2
  | settings_step H1; settings_step H2; settings_step H3
  | settings_step H1; settings_step H2; settings_step H3; settings_step H4 ];
  reflexivity.

Lemma main_trace_missing_section (rt : runtime) (w : world) (config : ConfigParser)
    (name : string) :
  config_read w "config.ini" = Some (Ok config) ->
  settings_raise rt config (NoSectionError name) ->
  trace_of (main rt w) =
  map Print ("Iniciando Project Sentinel..." :: msg_missing_section name).
Proof.
  intros Hcfg Hraise.
  erewrite (main_trace_handler rt w (NoSectionError name)); [|reflexivity|].
  2:{ settings_raise_cases Hcfg Hraise. }
  reflexivity.
Qed.

Lemma main_trace_missing_option (rt : runtime) (w : world) (config : ConfigParser)
    (section name : string) :
  config_read w "config.ini" = Some (Ok config) ->
  settings_raise rt config (NoOptionError name section) ->
  trace_of (main rt w) =
  map Print ("Iniciando Project Sentinel..." :: msg_missing_option name section).
Proof.
  intros Hcfg Hraise.
  erewrite (main_trace_handler rt w (NoOptionError name section)); [|reflexivity|].
  2:{ settings_raise_cases Hcfg Hraise. }
  reflexivity.
Qed.

Lemma fatal_message_kind (e1 e2 : config_error) :
  fatal_message e1 = fatal_message e2 -> same_kind e1 e2 = true.
Proof.
  destruct e1, e2; intros H; try reflexivity; exfalso;
    unfold fatal_message, msg_missing_file, msg_missing_section, msg_missing_option in H;
    simpl in H; discriminate H.
Qed.

(** C8: a missing configuration file, a missing section and a missing option
    are each fatal: the run prints the message of that error, which differs
    from the messages of the two others, and ends without any of the three
    fetch operations having been started. *)
Theorem config_errors_abort_before_fetch (rt : runtime) (w : world)
    (err : config_error) :
  config_fails rt w err ->
  trace_of (main rt w) =
    map Print ("Iniciando Project Sentinel..." :: fatal_message err) /\
  no_fetch (trace_of (main rt w)) = true /\
  (forall err', fatal_message err = fatal_message err' -> same_kind err err' = true).
Proof.
  intros Hfail.
  assert (Htrace : trace_of (main rt w) =
                   map Print ("Iniciando Project Sentinel..." :: fatal_message err)).
  { destruct Hfail as [H | config name Hcfg H | config section name Hcfg H].
    - apply main_trace_missing_file; exact H.
    - eapply main_trace_missing_section; eassumption.
    - eapply main_trace_missing_option; eassumption. }
  split; [exact Htrace|].
  split; [rewrite Htrace; apply no_fetch_prints|].
  intros err'; apply fatal_message_kind.
Qed.

Lemma config_errors_abort_before_fetch_witness :
  (trace_of (main sample_runtime (with_config None sample_world)) =
     map Print ("Iniciando Project Sentinel..." :: msg_missing_file) /\
   no_fetch (trace_of (main sample_runtime (with_config None sample_world))) = true) /\
  (trace_of (main sample_runtime
               (with_config (Some (Ok config_without_news)) sample_world)) =
     map Print ("Iniciando Project Sentinel..." :: msg_missing_section "NEWS_API") /\
   no_fetch (trace_of (main sample_runtime
               (with_config (Some (Ok config_without_news)) sample_world))) = true) /\
  (trace_of (main sample_runtime
               (with_config (Some (Ok config_without_port)) sample_world)) =
     map Print ("Iniciando Project Sentinel..." :: msg_missing_option "port" "IBKR") /\
   no_fetch (trace_of (main sample_runtime
               (with_config (Some (Ok config_without_port)) sample_world))) = true).
Proof.
  split; [|split].
  - destruct (config_errors_abort_before_fetch sample_runtime
                (with_config None sample_world) MissingFile) as (H1 & H2 & _).
    + apply fails_file. reflexivity.
    + split; [exact H1 | exact H2].
  - destruct (config_errors_abort_before_fetch sample_runtime
                (with_config (Some (Ok config_without_news)) sample_world)
                (MissingSection "NEWS_API")) as (H1 & H2 & _).
    + apply fails_section with (config := config_without_news); [reflexivity|].
      apply raise_api_key with (h := "127.0.0.1") (p := 7497) (c := 1); reflexivity.
    + split; [exact H1 | exact H2].
  - destruct (config_errors_abort_before_fetch sample_runtime
                (with_config (Some (Ok config_without_port)) sample_world)
                (MissingOption "IBKR" "port")) as (H1 & H2 & _).
    + apply fails_option with (config := config_without_port); [reflexivity|].
      apply raise_port with (h := "127.0.0.1"); reflexivity.
    + split; [exact H1 | exact H2].
Defined.

(** ** main.py: the report *)

Lemma append_assoc' (a b c : string) : ((a ++ b) ++ c = a ++ b ++ c)%string.
Proof. induction a as [|ch a IH]; simpl; [reflexivity | rewrite IH; reflexivity]. Qed.

Lemma stdout_text_app (tr1 tr2 : list event) :
  stdout_text (tr1 ++ tr2) = (stdout_text tr1 ++ stdout_text tr2)%string.
Proof.
  induction tr1 as [|ev tr1 IH]; [reflexivity|].
  destruct ev; simpl; rewrite IH; try reflexivity.
  rewrite append_assoc'. reflexivity.
Qed.

Lemma writes_print (line : string) : writes (print line) tt [Print line].
Proof. intros s. reflexivity. Qed.

Lemma writes_bind {A B} (m : M A) (k : A -> M B) (a : A) (b : B)
    (evs1 evs2 : list event) :
  writes m a evs1 -> writes (k a) b evs2 -> writes (bind m k) b (evs1 ++ evs2).
Proof.
  intros Hm Hk s. unfold bind. rewrite Hm, Hk. cbn [trace ib_connected].
  rewrite app_assoc. reflexivity.
Qed.

Ltac writes_tac :=
  repeat (eapply writes_bind; [apply writes_print | cbv beta]); apply writes_print.

(** C9: for given asset name, score and price, the text the renderer writes
    is a fixed text before the timestamp, the timestamp, and a fixed text
    after it: two renderings of the same inputs differ in the timestamp
    only. *)
Theorem display_report_idempotent (name : string) (score price : float) :
  exists before after : string,
    forall (w : world) (s : state),
      stdout_text (trace (final (display_report w name score price) s)) =
      (stdout_text (trace s) ++ before ++ strftime_utc (utc_now w) ++ after)%string.
Proof.
  exists (str_repeat "=" 63 ++ nl
          ++ "    PROJECT SENTINEL - CRYPTO & TRADFI SENTIMENT BRIDGE" ++ nl
          ++ "            Fecha y Hora: ")%string.
  eexists. intros w s.
  evar (evs : list event).
  assert (H : writes (display_report w name score price) tt evs).
  { unfold display_report; cbv zeta. subst evs. writes_tac. }
  unfold final. rewrite (H s). cbn [snd trace].
  rewrite stdout_text_app.
  apply (f_equal (append (stdout_text (trace s)))).
  subst evs. clear H.
  generalize (strftime_utc (utc_now w)) as ts.
  intros ts.
  cbn -[get_sentiment_label format_f format_comma_f].
  reflexivity.
Qed.

(** ** Runs of the model on the sample worlds *)

Ltac in_trace := vm_compute; repeat (first [left; reflexivity | right]); fail.

Example float_lit_values :
  float_lit 3 10 = S754_finite false 5404319552844595 (-54) /\
  float_lit 5 100 = S754_finite false 7205759403792794 (-57).
Proof. split; vm_compute; reflexivity. Qed.

Example format_values :
  format_f 3 (float_lit 5 10000) = "0.001" /\
  format_f 2 (float_lit 2675 1000) = "2.67" /\
  format_f 3 (float_neg (float_lit 1 10000)) = "-0.000" /\
  format_comma_f 2 (float_lit 1234567891 1000) = "1,234,567.89" /\
  format_comma_f 2 float_zero = "0.00".
Proof. repeat split; vm_compute; reflexivity. Qed.

Example main_sample_run :
  run (main sample_runtime sample_world) initial_state = Ok tt /\
  In (Print "-> Activo de Referencia       : SPDR S&P 500 ETF TRUST (vía IBKR)")
     (trace_of (main sample_runtime sample_world)) /\
  In (Print "-> Sentimiento de Noticias    : NEUTRAL-POSITIVO (vía NewsAPI & AI)")
     (trace_of (main sample_runtime sample_world)) /\
  In (Print "-> Puntuación de Sentimiento  : 0.100")
     (trace_of (main sample_runtime sample_world)) /\
  In (Print "-> Precio Actual              : $67,890.10")
     (trace_of (main sample_runtime sample_world)) /\
  In (Print "            Fecha y Hora: 2025-01-02 03:04:05 UTC")
     (trace_of (main sample_runtime sample_world)).
Proof.
  split; [vm_compute; reflexivity|].
  split; [in_trace|]. split; [in_trace|]. split; [in_trace|].
  split; in_trace.
Qed.

Example main_price_fetch_fails :
  In (Print "-> Precio Actual              : $0.00")
     (trace_of (main sample_runtime
                  (with_kraken (Raise (OtherException "ConnectionError" "timed out"))
                     sample_world))).
Proof. in_trace. Qed.

Example main_reference_fetch_fails :
  In (Print "-> Activo de Referencia       : Desconocido (vía IBKR)")
     (trace_of (main sample_runtime refused_world)) /\
  In (Print "[NEWSAPI]: Obtenidos 2 titulares para la consulta 'Desconocido'.")
     (trace_of (main sample_runtime refused_world)).
Proof. split; in_trace. Qed.

Example main_bad_port :
  trace_of (main sample_runtime
              (with_config
                 (Some (Ok (mkConfig [] [("IBKR", [("host", "h"); ("port", "x")])])))
                 sample_world)) =
  map Print ["Iniciando Project Sentinel...";
             nl ++ "HA OCURRIDO UN ERROR INESPERADO:";
             "Tipo de Error: ValueError";
             "Mensaje: invalid literal for int() with base 10: 'x'";
             "La ejecución del programa se ha detenido."]%string.
Proof. vm_compute. reflexivity. Qed.

(** ** Results and events of a computation, composed *)

Lemma steps_ret {A} (a : A) : steps (ret a) (Ok a) [].
Proof. intros s. split; [reflexivity|]. unfold final; simpl. rewrite app_nil_r. reflexivity. Qed.

Lemma steps_lift {A} (r : result A) : steps (lift r) r [].
Proof. intros s. split; [reflexivity|]. unfold final; simpl. rewrite app_nil_r. reflexivity. Qed.


Lemma steps_emit (ev : event) : steps (emit ev) (Ok tt) [ev].
Proof. intros s. split; reflexivity. Qed.

Lemma steps_print (line : string) : steps (print line) (Ok tt) [Print line].
Proof. apply steps_emit. Qed.

Lemma steps_bind_ok {A B} (m : M A) (k : A -> M B) (a : A) (r : result B)
    (evs1 evs2 : list event) :
  steps m (Ok a) evs1 -> steps (k a) r evs2 -> steps (bind m k) r (evs1 ++ evs2).
Proof.
  intros Hm Hk s. destruct (Hm s) as [Hr Ht]. unfold run, final, bind in *.
  destruct (m s) as [r1 s1]; simpl in *; subst r1.
  destruct (Hk s1) as [Hr' Ht']. unfold run, final in *.
  split; [exact Hr'|]. rewrite Ht', Ht, app_assoc. reflexivity.
Qed.

Lemma steps_bind_raise {A B} (m : M A) (k : A -> M B) (e : exn) (evs : list event) :
  steps m (Raise e) evs -> steps (bind m k) (Raise e) evs.
Proof.
  intros Hm s. destruct (Hm s) as [Hr Ht]. unfold run, final, bind in *.
  destruct (m s) as [r1 s1]; simpl in *; subst r1. split; [reflexivity | exact Ht].
Qed.

Lemma steps_try_except_ok {A} (body : M A) (handler : exn -> M A) (a : A)
    (evs : list event) :
  steps body (Ok a) evs -> steps (try_except body handler) (Ok a) evs.
Proof.
  intros Hm s. destruct (Hm s) as [Hr Ht]. unfold run, final, try_except in *.
  destruct (body s) as [r1 s1]; simpl in *; subst r1. split; [reflexivity | exact Ht].
Qed.

Lemma steps_try_except_raise {A} (body : M A) (handler : exn -> M A) (e : exn)
    (r : result A) (evs1 evs2 : list event) :
  steps body (Raise e) evs1 -> steps (handler e) r evs2 ->
  steps (try_except body handler) r (evs1 ++ evs2).
Proof.
  intros Hm Hk s. destruct (Hm s) as [Hr Ht]. unfold run, final, try_except in *.
  destruct (body s) as [r1 s1]; simpl in *; subst r1.
  destruct (Hk s1) as [Hr' Ht']. unfold run, final in *.
  split; [exact Hr'|]. rewrite Ht', Ht, app_assoc. reflexivity.
Qed.

Lemma steps_writes {A} (m : M A) (a : A) (evs : list event) :
  writes m a evs -> steps m (Ok a) evs.
Proof. intros H s. unfold run, final. rewrite (H s). split; reflexivity. Qed.

Lemma steps_trace_of {A} (m : M A) (r : result A) (evs : list event) :
  steps m r evs -> run m initial_state = r /\ trace_of m = evs.
Proof. intros H. destruct (H initial_state) as [Hr Ht]. split; [exact Hr | exact Ht]. Qed.

(** *** The connectors, for every answer of the world *)

Lemma get_btc_price_steps (rt : runtime) (w : world) :
  exists line,
    steps (get_btc_price rt w) (Ok (btc_price_result rt w))
      [KrakenQueryPublic "Ticker" [("pair", "XXBTZUSD")]; Print line].
Proof.
  unfold steps, btc_price_result, run, final, get_btc_price, ticker_price,
    try_except, bind, lift, ret, print, emit.
  cbn [fst snd trace ib_connected].
  destruct_results; eexists; intros s; cbn [fst snd trace ib_connected];
    rewrite <- app_assoc; split; reflexivity.
Qed.

Lemma get_market_news_steps (w : world) (api_key query : string) :
  exists line,
    steps (get_market_news w api_key query) (Ok (news_result w api_key query))
      [HttpGet "https://newsapi.org/v2/everything" (news_params api_key query);
       Print line].
Proof.
  unfold steps, news_result, run, final, get_market_news, news_titles, news_params,
    try_except, bind, lift, ret, print, emit.
  cbn [fst snd trace ib_connected].
  destruct_results;
    try match goal with
    | |- context [match ?e with FileNotFoundError _ => _ | _ => _ end] => destruct e
    end;
    eexists; intros s; cbn [fst snd trace ib_connected];
    rewrite <- app_assoc; split; reflexivity.
Qed.

Ltac cases_spy_name w host port client_id :=
  unfold steps, spy_name_result, holds_connection, connecting_line,
    run, final, get_spy_name, connect, reqContractDetails, disconnect,
    try_finally, try_except, bind, lift, ret, print, emit, set_connected, isConnected;
  cbn [fst snd trace ib_connected];
  destruct (ib_connect w host port client_id) as [[[]|e1] c1];
  destruct (ib_reqContractDetails w) as [[[|d ds]|e2] c2];
  cbn [fst snd trace ib_connected];
  try (destruct e1); try (destruct e2);
  try (destruct c1); try (destruct c2).

Ltac close_spy_name :=
  cbn [fst snd trace ib_connected]; rewrite <- ?app_assoc; cbn [app];
  split; reflexivity.

Lemma get_spy_name_steps (w : world) (host : string) (port client_id : Z) :
  exists evs,
    steps (get_spy_name w host port client_id)
      (Ok (spy_name_result w host port client_id))
      (Print (connecting_line host port client_id)
         :: IBConnect host port client_id :: evs) /\
    no_fetch evs = true /\
    (In IBDisconnect evs <-> holds_connection w host port client_id = true).
Proof.
  cases_spy_name w host port client_id;
    (eexists; split; [intros s; close_spy_name|]);
    (split; [reflexivity|]);
    cbn [In]; split; intros H; try reflexivity; try discriminate H;
    repeat (destruct H as [H|H]; try discriminate H); try contradiction;
    auto 10.
Qed.

(** *** The analysis, for every list of headlines *)

Lemma analyze_headlines_sentiment_steps (rt : runtime) (hs : list pyval) :
  exists lines,
    steps (analyze_headlines_sentiment rt hs) (analysis_result rt hs) (map Print lines) /\
    (forall e, analysis_result rt hs = Raise e ->
       lines = [analyzing_line (List.length hs)]).
Proof.
  unfold steps, analysis_result, analyzing_line, run, final,
    analyze_headlines_sentiment, bind, lift, ret, print, emit.
  destruct hs as [|h hs].
  - exists ["[ANALYSIS]: La lista de titulares está vacía. No hay nada que analizar."].
    split; [intros s; split; reflexivity | discriminate].
  - destruct (analyze_loop rt (h :: hs) [] float_zero) as [[ds total]|e].
    + destruct (truediv_int total (Z.of_nat (List.length (h :: hs)))) as [avg|e].
      * eexists [_; _]. split; [|discriminate].
        intros s; cbn [fst snd trace ib_connected map]; rewrite <- app_assoc;
          split; reflexivity.
      * eexists [_]. split; [|reflexivity].
        intros s; cbn [fst snd trace ib_connected map]; split; reflexivity.
    + eexists [_]. split; [|reflexivity].
      intros s; cbn [fst snd trace ib_connected map]; split; reflexivity.
Qed.

Lemma analyze_loop_raises (rt : runtime) (hs1 : list pyval) :
  forall (h : pyval) (hs2 : list pyval) (e : exn) (acc : list detail) (total : float),
    Forall (fun x => exists sc, polarity_scores rt x = Ok sc) hs1 ->
    polarity_scores rt h = Raise e ->
    analyze_loop rt (hs1 ++ h :: hs2) acc total = Raise e.
Proof.
  induction hs1 as [|x hs1 IH]; intros h hs2 e acc total Hall Hh.
  - simpl. rewrite Hh. reflexivity.
  - inversion Hall as [|? ? [sc Hx] Hrest]; subst.
    cbn [app analyze_loop]. rewrite Hx. apply IH; assumption.
Qed.

Lemma analysis_result_strings (rt : runtime) (hs : list string) :
  exists sm, analysis_result rt (map VStr hs) = Ok sm.
Proof.
  destruct hs as [|h hs]; [eexists; reflexivity|].
  unfold analysis_result.
  change (map VStr (h :: hs)) with (VStr h :: map VStr hs).
  cbv beta iota.
  change (VStr h :: map VStr hs) with (map VStr (h :: hs)).
  rewrite analyze_loop_strings, length_map.
  change (List.length (h :: hs)) with (S (List.length hs)).
  rewrite truediv_int_pos. eexists; reflexivity.
Qed.

(** *** The report and the orchestration, for every answer of the world *)

Lemma steps_events_eq {A} (m : M A) (r : result A) (evs1 evs2 : list event) :
  steps m r evs1 -> evs1 = evs2 -> steps m r evs2.
Proof. intros H <-. exact H. Qed.

Ltac steps_prints :=
  repeat (eapply steps_bind_ok; [apply steps_print | cbv beta]); apply steps_print.

Lemma display_report_lines (w : world) (name : string) (score price : float) :
  exists lines,
    steps (display_report w name score price) (Ok tt) (map Print lines) /\
    List.length lines = 24%nat /\
    nth 2 lines "" = "            Fecha y Hora: " ++ strftime_utc (utc_now w) /\
    nth 7 lines "" = ljust 30 "-> Activo de Referencia" ++ ": " ++ name ++ " (vía IBKR)" /\
    nth 8 lines "" = ljust 30 "-> Sentimiento de Noticias" ++ ": "
                     ++ get_sentiment_label score ++ " (vía NewsAPI & AI)" /\
    nth 9 lines "" = ljust 30 "-> Puntuación de Sentimiento" ++ ": " ++ format_f 3 score /\
    nth 14 lines "" = ljust 30 "-> Precio Actual" ++ ": $" ++ format_comma_f 2 price /\
    nth 18 lines "" = "El sentimiento del mercado tradicional es "
                      ++ get_sentiment_label score ++ ".".
Proof.
  eexists [_; _; _; _; _; _; _; _; _; _; _; _; _; _; _; _; _; _; _; _; _; _; _; _].
  split.
  - eapply steps_events_eq.
    + unfold display_report; cbv zeta. steps_prints.
    + cbn [app map]. reflexivity.
  - cbn [List.length nth]. repeat split; reflexivity.
Qed.

Lemma display_report_steps (w : world) (name : string) (score price : float) :
  steps (display_report w name score price) (Ok tt)
    (trace_of (display_report w name score price)).
Proof.
  destruct (display_report_lines w name score price) as (lines & H & _).
  destruct (steps_trace_of _ _ _ H) as [_ Ht]. rewrite Ht. exact H.
Qed.

Lemma load_config_steps (w : world) (r : result ConfigParser) :
  config_read w "config.ini" = Some r -> steps (load_config w "config.ini") r [].
Proof. intros H. unfold load_config. rewrite H. apply steps_lift. Qed.

Ltac step_ok lemma := eapply steps_bind_ok; [lemma | cbv beta].
Ltac step_lift H := eapply steps_bind_ok; [rewrite H; apply steps_lift | cbv beta].

Ltac main_handler Hh :=
  unfold main;
  match goal with
  | |- steps (bind _ (fun _ => try_except ?b ?h)) _ _ =>
      assert (Hh : forall e, steps (h e) (Ok tt) (map Print (error_lines e)))
        by (intros e0; destruct e0; cbv beta iota;
            (eapply steps_events_eq; [steps_prints | reflexivity]))
  end.

(** [main] after its first line, its [try] block raising. *)
Ltac main_raises Hh :=
  step_ok ltac:(apply steps_print);
  eapply steps_try_except_raise; [|apply Hh].


(** [main] from the loading of the settings to the fetch of the news. *)
Ltac main_to_analysis Hcfg Hh Hp Hc Hk Hspy Hnews :=
  step_ok ltac:(apply load_config_steps; exact Hcfg);
  step_lift Hh; step_lift Hp; step_lift Hc; step_lift Hk;
  step_ok ltac:(apply steps_print);
  step_ok ltac:(exact Hspy);
  step_ok ltac:(apply steps_print);
  step_ok ltac:(exact Hnews).

(** The run of [main] with its settings loaded and the analysis done. *)
Lemma main_report_steps (rt : runtime) (w : world) (host : string)
    (port client_id : Z) (api_key : string) (sm : summary) :
  settings_loaded rt w host port client_id api_key ->
  analysis_result rt
    (news_result w api_key (spy_name_result w host port client_id)) = Ok sm ->
  exists spy_evs news_line an_lines btc_line,
    steps (main rt w) (Ok tt)
      (Print "Iniciando Project Sentinel..."
       :: Print "Configuración cargada. Obteniendo datos..."
       :: Print (connecting_line host port client_id)
       :: IBConnect host port client_id :: spy_evs
       ++ [Print ("Nombre del ETF SPY obtenido: "
                  ++ spy_name_result w host port client_id);
           HttpGet "https://newsapi.org/v2/everything"
             (news_params api_key (spy_name_result w host port client_id));
           Print news_line]
       ++ map Print an_lines
       ++ [KrakenQueryPublic "Ticker" [("pair", "XXBTZUSD")]; Print btc_line;
           Print "Datos recopilados. Generando informe..."]
       ++ trace_of (display_report w (spy_name_result w host port client_id)
                      (average_sentiment_compound sm) (btc_price_result rt w)))%list /\
    no_fetch spy_evs = true.
Proof.
  intros (config & Hcfg & Hh & Hp & Hc & Hk) Hres.
  destruct (get_spy_name_steps w host port client_id) as (spy_evs & Hspy & Hnf & _).
  destruct (get_market_news_steps w api_key (spy_name_result w host port client_id))
    as (news_line & Hnews).
  destruct (analyze_headlines_sentiment_steps rt
              (news_result w api_key (spy_name_result w host port client_id)))
    as (an_lines & Han & _).
  rewrite Hres in Han.
  destruct (get_btc_price_steps rt w) as (btc_line & Hbtc).
  exists spy_evs, news_line, an_lines, btc_line.
  split; [|exact Hnf].
  unfold main.
  eapply steps_events_eq.
  - step_ok ltac:(apply steps_print).
    apply steps_try_except_ok.
    main_to_analysis Hcfg Hh Hp Hc Hk Hspy Hnews.
    step_ok ltac:(exact Han).
    step_ok ltac:(exact Hbtc).
    step_ok ltac:(apply steps_print).
    apply display_report_steps.
  - cbn [app]. rewrite <- ?app_assoc. reflexivity.
Qed.

(** The run of [main] with its settings loaded when the analysis raises. *)
Lemma main_analysis_raises_steps (rt : runtime) (w : world) (host : string)
    (port client_id : Z) (api_key : string) (e : exn) :
  settings_loaded rt w host port client_id api_key ->
  analysis_result rt
    (news_result w api_key (spy_name_result w host port client_id)) = Raise e ->
  exists spy_evs news_line,
    steps (main rt w) (Ok tt)
      (Print "Iniciando Project Sentinel..."
       :: Print "Configuración cargada. Obteniendo datos..."
       :: Print (connecting_line host port client_id)
       :: IBConnect host port client_id :: spy_evs
       ++ [Print ("Nombre del ETF SPY obtenido: "
                  ++ spy_name_result w host port client_id);
           HttpGet "https://newsapi.org/v2/everything"
             (news_params api_key (spy_name_result w host port client_id));
           Print news_line;
           Print (analyzing_line
                    (List.length
                       (news_result w api_key (spy_name_result w host port client_id))))]
       ++ map Print (error_lines e))%list /\
    no_fetch spy_evs = true.
Proof.
  intros (config & Hcfg & Hh & Hp & Hc & Hk) Hres.
  destruct (get_spy_name_steps w host port client_id) as (spy_evs & Hspy & Hnf & _).
  destruct (get_market_news_steps w api_key (spy_name_result w host port client_id))
    as (news_line & Hnews).
  destruct (analyze_headlines_sentiment_steps rt
              (news_result w api_key (spy_name_result w host port client_id)))
    as (an_lines & Han & Hlines).
  rewrite (Hlines e Hres) in Han. rewrite Hres in Han.
  exists spy_evs, news_line.
  split; [|exact Hnf].
  main_handler Hhandler.
  eapply steps_events_eq.
  - main_raises Hhandler.
    main_to_analysis Hcfg Hh Hp Hc Hk Hspy Hnews.
    apply steps_bind_raise. exact Han.
  - cbn [app map]. rewrite <- ?app_assoc. reflexivity.
Qed.

(** * Further properties of the program *)

(** ** The labeler is symmetric about neutral *)

Lemma SFcompare_opp (x y : float) :
  SFcompare (SFopp x) (SFopp y) = SFcompare y x.
Proof.
  destruct x as [sx|sx| |sx mx ex], y as [sy|sy| |sy my ey]; simpl;
    try destruct sx; try destruct sy; simpl; try reflexivity;
    change (Pos.compare_cont Eq) with Pos.compare;
    rewrite (Z.compare_antisym ex ey), (Pos.compare_antisym mx my);
    destruct (ex ?= ey); destruct (Pos.compare mx my); reflexivity.
Qed.

Lemma float_neg_involutive (x : float) : float_neg (float_neg x) = x.
Proof. destruct x; simpl; rewrite ?negb_involutive; reflexivity. Qed.

Lemma float_lt_neg_l (x y : float) :
  float_lt (float_neg x) y = float_lt (float_neg y) x.
Proof.
  pose proof (SFcompare_opp x (SFopp y)) as H.
  change (SFopp (SFopp y)) with (float_neg (float_neg y)) in H.
  rewrite float_neg_involutive in H.
  unfold float_lt, SFltb, float_neg. rewrite H. reflexivity.
Qed.

Lemma float_lt_neg_r (x y : float) :
  float_lt x (float_neg y) = float_lt y (float_neg x).
Proof.
  pose proof (SFcompare_opp (SFopp x) y) as H.
  change (SFopp (SFopp x)) with (float_neg (float_neg x)) in H.
  rewrite float_neg_involutive in H.
  unfold float_lt, SFltb, float_neg. rewrite <- H. reflexivity.
Qed.

Lemma float_lt_le (x y : float) : float_lt x y = true -> float_le x y = true.
Proof.
  unfold float_lt, float_le, SFltb, SFleb.
  destruct (SFcompare x y) as [[ | | ]|]; congruence.
Qed.

(** X1: the label of the opposite score is the mirror image of the label of
    the score, for every float; in particular every float gets one of the
    five labels. *)
Theorem get_sentiment_label_mirror (score : float) :
  exists l,
    get_sentiment_label score = label_text l /\
    get_sentiment_label (float_neg score) = label_text (mirror l).
Proof.
  destruct thresholds_ordered as (_ & Hn0 & Hlh).
  rewrite !get_sentiment_label_eq. unfold float_gt.
  rewrite (float_lt_neg_r t_high score), (float_lt_neg_r t_low score).
  rewrite (float_lt_neg_l score (float_neg t_high)),
    (float_lt_neg_l score (float_neg t_low)), !float_neg_involutive.
  destruct (float_lt t_high score) eqn:A.
  { assert (B : float_lt t_low score = true)
      by (apply float_lt_le_trans with (b := t_high);
          [exact Hlh | apply float_lt_le; exact A]).
    assert (D : float_lt score (float_neg t_low) = false).
    { destruct (float_lt score (float_neg t_low)) eqn:D; [|reflexivity].
      pose proof (float_lt_le_trans _ _ _ B (float_lt_le _ _ D)) as F.
      vm_compute in F. discriminate F. }
    assert (C : float_lt score (float_neg t_high) = false).
    { destruct (float_lt score (float_neg t_high)) eqn:C; [|reflexivity].
      pose proof (float_lt_le_trans _ _ _ A (float_lt_le _ _ C)) as F.
      vm_compute in F. discriminate F. }
    rewrite C, D. exists POSITIVE. split; reflexivity. }
  destruct (float_lt t_low score) eqn:B.
  { assert (D : float_lt score (float_neg t_low) = false).
    { destruct (float_lt score (float_neg t_low)) eqn:D; [|reflexivity].
      pose proof (float_lt_le_trans _ _ _ B (float_lt_le _ _ D)) as F.
      vm_compute in F. discriminate F. }
    assert (C : float_lt score (float_neg t_high) = false).
    { destruct (float_lt score (float_neg t_high)) eqn:C; [|reflexivity].
      pose proof (float_lt_le_trans _ _ _ B (float_lt_le _ _ C)) as F.
      vm_compute in F. discriminate F. }
    rewrite C, D. exists NEUTRAL_POSITIVE. split; reflexivity. }
  destruct (float_lt score (float_neg t_high)) eqn:C;
    [exists NEGATIVE; split; reflexivity|].
  destruct (float_lt score (float_neg t_low)) eqn:D;
    [exists NEUTRAL_NEGATIVE | exists NEUTRAL]; split; reflexivity.
Qed.

(** ** Fetch events of a trace *)

Lemma fetches_app (tr1 tr2 : list event) :
  fetches (tr1 ++ tr2) = (fetches tr1 ++ fetches tr2)%list.
Proof. apply filter_app. Qed.

Lemma fetches_prints (lines : list string) : fetches (map Print lines) = [].
Proof. induction lines as [|l ls IH]; [reflexivity | exact IH]. Qed.

Lemma no_fetch_fetches (tr : list event) : no_fetch tr = true -> fetches tr = [].
Proof.
  unfold no_fetch, fetches. induction tr as [|ev tr IH]; [reflexivity|].
  simpl. destruct (is_fetch ev); simpl; [discriminate | exact IH].
Qed.

Lemma fetches_display_report (w : world) (name : string) (score price : float) :
  fetches (trace_of (display_report w name score price)) = [].
Proof.
  destruct (display_report_lines w name score price) as (lines & H & _).
  destruct (steps_trace_of _ _ _ H) as [_ Ht]. rewrite Ht. apply fetches_prints.
Qed.

(** ** analysis.py: a headline the model cannot score *)

(** X2: when the polarity model raises on a headline, the headlines before
    it having been scored, the analysis raises that exception: no partial
    summary is returned and only the announcement line has been printed. *)
Theorem analyze_headlines_sentiment_raises (rt : runtime) (hs1 : list pyval)
    (h : pyval) (hs2 : list pyval) (e : exn) (s : state) :
  Forall (fun x => exists sc, polarity_scores rt x = Ok sc) hs1 ->
  polarity_scores rt h = Raise e ->
  run (analyze_headlines_sentiment rt (hs1 ++ h :: hs2)) s = Raise e /\
  trace (final (analyze_headlines_sentiment rt (hs1 ++ h :: hs2)) s) =
    (trace s ++ [Print (analyzing_line (List.length (hs1 ++ h :: hs2)))])%list.
Proof.
  intros Hall Hh.
  destruct (analyze_headlines_sentiment_steps rt (hs1 ++ h :: hs2))
    as (lines & Hsteps & Hlines).
  assert (Hres : analysis_result rt (hs1 ++ h :: hs2) = Raise e).
  { unfold analysis_result.
    rewrite (analyze_loop_raises rt hs1 h hs2 e [] float_zero Hall Hh).
    destruct (hs1 ++ h :: hs2)%list eqn:E; [|reflexivity].
    destruct hs1; discriminate E. }
  rewrite (Hlines e Hres), Hres in Hsteps.
  exact (Hsteps s).
Qed.

Lemma analyze_headlines_sentiment_raises_witness :
  run (analyze_headlines_sentiment sample_runtime
         ([VStr "Stocks slip"] ++ VNone :: [VStr "Markets rally on strong earnings"]))
      initial_state
  = Raise (OtherException "TypeError" "'NoneType' object is not iterable").
Proof.
  apply (analyze_headlines_sentiment_raises sample_runtime [VStr "Stocks slip"] VNone
           [VStr "Markets rally on strong earnings"]
           (OtherException "TypeError" "'NoneType' object is not iterable")
           initial_state).
  - constructor; [eexists; reflexivity | constructor].
  - reflexivity.
Defined.

(** ** connectors.py: one call to the service, one line of log *)

(** X3: every run of the price fetch makes exactly one query to the ticker,
    for the pair XXBTZUSD, and then prints exactly one line; what it returns
    does not depend on the state it starts from. *)
Theorem get_btc_price_single_query (rt : runtime) (w : world) :
  exists line,
    forall s,
      run (get_btc_price rt w) s = Ok (btc_price_result rt w) /\
      trace (final (get_btc_price rt w) s) =
        (trace s ++ [KrakenQueryPublic "Ticker" [("pair", "XXBTZUSD")]; Print line])%list.
Proof.
  destruct (get_btc_price_steps rt w) as (line & H). exists line. exact H.
Qed.

(** X4: every run of the news fetch makes exactly one request, to the
    everything endpoint with the query, the language, the recency order and
    the credential as parameters, and then prints exactly one line. *)
Theorem get_market_news_single_request (w : world) (api_key query : string) :
  exists line,
    forall s,
      run (get_market_news w api_key query) s = Ok (news_result w api_key query) /\
      trace (final (get_market_news w api_key query) s) =
        (trace s ++ [HttpGet "https://newsapi.org/v2/everything"
                       [("q", query); ("language", "en"); ("sortBy", "publishedAt");
                        ("apiKey", api_key)];
                     Print line])%list.
Proof.
  destruct (get_market_news_steps w api_key query) as (line & H).
  exists line. exact H.
Qed.

(** ** connectors.py: the titles of the articles *)

Lemma map_result_all {A B} (f : A -> result B) (l : list A) (l' : list B) :
  Forall2 (fun a b => f a = Ok b) l l' -> map_result f l = Ok l'.
Proof.
  induction 1 as [|a b l l' Hab _ IH]; [reflexivity|].
  cbn [map_result]. rewrite Hab, IH. reflexivity.
Qed.

Lemma map_result_one_raises {A B} (f : A -> result B) (l : list A) :
  Exists (fun a => exists e, f a = Raise e) l -> exists e, map_result f l = Raise e.
Proof.
  induction 1 as [a l [e He] | a l _ [e IH]]; cbn [map_result].
  - rewrite He. exists e. reflexivity.
  - destruct (f a) as [b|e']; [|exists e'; reflexivity].
    rewrite IH. exists e. reflexivity.
Qed.

(** X5: with a successful response whose document lists the articles, the
    news fetch returns the titles of all the articles in their order when
    each article has one, and no headline at all as soon as one article
    cannot give its title. *)
Theorem get_market_news_all_or_nothing (w : world) (api_key query : string)
    (response : Response) (d : list (string * pyval)) (articles : list pyval)
    (s : state) :
  requests_get w "https://newsapi.org/v2/everything" (news_params api_key query)
    = Ok response ->
  raise_for_status response = Ok tt ->
  json response = Ok (VDict d) ->
  assoc "articles" d = Some (VList articles) ->
  (forall titles,
     Forall2 (fun a t => getitem_str a "title" = Ok t) articles titles ->
     run (get_market_news w api_key query) s = Ok titles) /\
  (Exists (fun a => exists e, getitem_str a "title" = Raise e) articles ->
   run (get_market_news w api_key query) s = Ok []).
Proof.
  intros Hget Hstatus Hjson Harts.
  rewrite get_market_news_run, Hget, Hstatus, Hjson.
  unfold news_titles, py_get. rewrite Harts. cbn [py_iter].
  split.
  - intros titles H. rewrite (map_result_all _ _ _ H). reflexivity.
  - intros H. destruct (map_result_one_raises _ _ H) as [e He].
    rewrite He. reflexivity.
Qed.

Lemma get_market_news_all_or_nothing_witness :
  run (get_market_news sample_world "k3y" "SPY") initial_state =
    Ok [VStr "Markets rally on strong earnings"; VStr "Recession fears grow"] /\
  run (get_market_news untitled_article_world "k3y" "SPY") initial_state = Ok [].
Proof.
  split.
  - refine (proj1 (get_market_news_all_or_nothing sample_world "k3y" "SPY" _ _ _
                     initial_state eq_refl eq_refl eq_refl eq_refl) _ _).
    repeat constructor.
  - refine (proj2 (get_market_news_all_or_nothing untitled_article_world "k3y" "SPY"
                     _ _ _ initial_state eq_refl eq_refl eq_refl eq_refl) _).
    apply Exists_cons_tl. apply Exists_cons_hd.
    exists (KeyError "'title'"). reflexivity.
Defined.

(** ** connectors.py: the paths of the reference-asset fetch *)

(** X6: when the connection and the request succeed and contract details
    come back, the name returned is the long name of the first entry, what
    follows it in the list playing no part; the call connects, requests the
    details of SPY on SMART in USD, logs the name, and disconnects if the
    client is still connected. *)
Theorem get_spy_name_first_contract (w : world) (host : string) (port client_id : Z)
    (first : ContractDetails) (others : list ContractDetails) (s : state) :
  fst (ib_connect w host port client_id) = Ok tt ->
  fst (ib_reqContractDetails w) = Ok (first :: others) ->
  run (get_spy_name w host port client_id) s = Ok (longName first) /\
  trace (final (get_spy_name w host port client_id) s) =
    (trace s
     ++ [Print (connecting_line host port client_id);
         IBConnect host port client_id;
         IBReqContractDetails "SPY" "SMART" "USD";
         Print ("[IBKR]: Nombre del contrato obtenido: " ++ longName first)]
     ++ (if snd (ib_reqContractDetails w)
         then [Print "[IBKR]: Desconectando sesión."; IBDisconnect] else []))%list.
Proof.
  unfold connecting_line, run, final, get_spy_name, connect, reqContractDetails,
    disconnect, try_finally, try_except, bind, lift, ret, print, emit,
    set_connected, isConnected.
  cbn [fst snd trace ib_connected].
  destruct (ib_connect w host port client_id) as [r1 c1].
  destruct (ib_reqContractDetails w) as [r2 c2].
  cbn [fst snd]. intros -> ->.
  destruct c2; cbn [fst snd trace ib_connected];
    rewrite <- ?app_assoc; cbn [app]; split; reflexivity.
Qed.

Lemma get_spy_name_first_contract_witness :
  run (get_spy_name sample_world "127.0.0.1" 7497 1) initial_state
  = Ok "SPDR S&P 500 ETF TRUST".
Proof.
  apply (get_spy_name_first_contract sample_world "127.0.0.1" 7497 1
           (mkContractDetails "SPDR S&P 500 ETF TRUST") [] initial_state);
    reflexivity.
Defined.

(** X7: when the connection raises, the details of the contract are never
    requested: after the attempt to connect the call prints one line of
    error and, only if the client reports a connection all the same,
    disconnects. *)
Theorem get_spy_name_connect_fails (w : world) (host : string) (port client_id : Z)
    (e : exn) :
  fst (ib_connect w host port client_id) = Raise e ->
  exists line,
    forall s,
      run (get_spy_name w host port client_id) s = Ok "Desconocido" /\
      trace (final (get_spy_name w host port client_id) s) =
        (trace s
         ++ [Print (connecting_line host port client_id);
             IBConnect host port client_id;
             Print line]
         ++ (if snd (ib_connect w host port client_id)
             then [Print "[IBKR]: Desconectando sesión."; IBDisconnect] else []))%list.
Proof.
  unfold connecting_line, run, final, get_spy_name, connect, reqContractDetails,
    disconnect, try_finally, try_except, bind, lift, ret, print, emit,
    set_connected, isConnected.
  cbn [fst snd trace ib_connected].
  destruct (ib_connect w host port client_id) as [r1 c1].
  cbn [fst snd]. intros ->.
  destruct e; destruct c1; eexists; intros s; cbn [fst snd trace ib_connected];
    rewrite <- ?app_assoc; cbn [app]; split; reflexivity.
Qed.

Lemma get_spy_name_connect_fails_witness :
  exists line,
    trace (final (get_spy_name refused_world "127.0.0.1" 7497 1) initial_state) =
    [Print (connecting_line "127.0.0.1" 7497 1); IBConnect "127.0.0.1" 7497 1;
     Print line].
Proof.
  destruct (get_spy_name_connect_fails refused_world "127.0.0.1" 7497 1
              (ConnectionRefusedError "[Errno 111] Connect call failed") eq_refl)
    as [line H].
  exists line. exact (proj2 (H initial_state)).
Defined.

(** X8: every call makes exactly one attempt to connect, with the host, the
    port and the client id it was given, and it disconnects exactly when the
    client is connected as the [try] block is left: never otherwise. *)
Theorem get_spy_name_disconnects_iff_connected (w : world) (host : string)
    (port client_id : Z) :
  exists evs,
    (forall s,
       trace (final (get_spy_name w host port client_id) s) =
       (trace s ++ Print (connecting_line host port client_id)
                   :: IBConnect host port client_id :: evs)%list) /\
    no_fetch evs = true /\
    (In IBDisconnect evs <-> holds_connection w host port client_id = true).
Proof.
  destruct (get_spy_name_steps w host port client_id) as (evs & H & Hnf & Hiff).
  exists evs. split; [intros s; exact (proj2 (H s))|].
  split; [exact Hnf | exact Hiff].
Qed.

Lemma get_spy_name_disconnects_iff_connected_witness :
  exists evs,
    trace_of (get_spy_name refused_world "127.0.0.1" 7497 1) =
      Print (connecting_line "127.0.0.1" 7497 1) :: IBConnect "127.0.0.1" 7497 1 :: evs /\
    ~ In IBDisconnect evs.
Proof.
  destruct (get_spy_name_disconnects_iff_connected refused_world "127.0.0.1" 7497 1)
    as (evs & H & _ & Hiff).
  exists evs. split; [exact (H initial_state)|].
  intros Hin. apply Hiff in Hin. discriminate Hin.
Defined.

(** ** main.py: the report *)

(** X9: whatever the name, the score (a NaN or an infinity included) and the
    price, the renderer returns normally having printed exactly twenty-four
    lines and nothing else; the label of the score is the one shown both in
    the news line and in the conclusion. *)
Theorem display_report_prints_24_lines (w : world) (name : string)
    (score price : float) :
  exists lines,
    (forall s,
       run (display_report w name score price) s = Ok tt /\
       trace (final (display_report w name score price) s) =
         (trace s ++ map Print lines)%list) /\
    List.length lines = 24%nat /\
    nth 7 lines "" = ljust 30 "-> Activo de Referencia" ++ ": " ++ name ++ " (vía IBKR)" /\
    nth 8 lines "" = ljust 30 "-> Sentimiento de Noticias" ++ ": "
                     ++ get_sentiment_label score ++ " (vía NewsAPI & AI)" /\
    nth 9 lines "" = ljust 30 "-> Puntuación de Sentimiento" ++ ": " ++ format_f 3 score /\
    nth 14 lines "" = ljust 30 "-> Precio Actual" ++ ": $" ++ format_comma_f 2 price /\
    nth 18 lines "" = "El sentimiento del mercado tradicional es "
                      ++ get_sentiment_label score ++ ".".
Proof.
  destruct (display_report_lines w name score price)
    as (lines & H & Hlen & _ & H7 & H8 & H9 & H14 & H18).
  exists lines. repeat split; try assumption; apply H.
Qed.

(** ** main.py: the orchestration *)

(** X10: every run of [main] returns normally, whatever the world answers,
    and its first output is the starting line. *)
Theorem main_returns_normally (rt : runtime) (w : world) (s : state) :
  run (main rt w) s = Ok tt /\
  exists evs,
    trace (final (main rt w) s) =
    (trace s ++ Print "Iniciando Project Sentinel..." :: evs)%list.
Proof.
  split; [apply main_never_raises|].
  unfold main.
  match goal with
  | |- exists evs, trace (final (bind (print ?l) (fun _ => ?k)) s) = _ =>
      assert (Hk : grows k) by (unfold load_config; grows_tac);
      rewrite (final_bind_ok (print l) (fun _ => k) s _ tt eq_refl);
      cbv beta
  end.
  match goal with
  | |- exists evs, trace (final _ ?s1) = _ => destruct (Hk s1) as [evs Hevs]
  end.
  exists evs. rewrite Hevs. cbn [trace].
  rewrite <- app_assoc. reflexivity.
Qed.



Lemma suffix_cons {A} (a : A) (l x : list A) :
  (exists b, l = (b ++ x)%list) -> exists b, a :: l = (b ++ x)%list.
Proof. intros [b ->]. exists (a :: b). reflexivity. Qed.

Lemma suffix_app {A} (l1 l x : list A) :
  (exists b, l = (b ++ x)%list) -> exists b, (l1 ++ l)%list = (b ++ x)%list.
Proof. intros [b ->]. exists (l1 ++ b)%list. rewrite app_assoc. reflexivity. Qed.

Lemma main_report_suffix (rt : runtime) (w : world) (host : string)
    (port client_id : Z) (api_key : string) (sm : summary) :
  settings_loaded rt w host port client_id api_key ->
  analysis_result rt
    (news_result w api_key (spy_name_result w host port client_id)) = Ok sm ->
  exists before,
    trace_of (main rt w) =
    (before ++ trace_of (display_report w (spy_name_result w host port client_id)
                           (average_sentiment_compound sm) (btc_price_result rt w)))%list.
Proof.
  intros Hset Hres.
  destruct (main_report_steps rt w host port client_id api_key sm Hset Hres)
    as (spy_evs & news_line & an_lines & btc_line & H & _).
  destruct (steps_trace_of _ _ _ H) as [_ Ht]. rewrite Ht.
  generalize (trace_of (display_report w (spy_name_result w host port client_id)
                          (average_sentiment_compound sm) (btc_price_result rt w))).
  intros report.
  repeat (first [apply suffix_cons | apply suffix_app]).
  exists []. reflexivity.
Qed.

(** X12: with the settings loaded and the headlines scored, [main] ends by
    rendering the report, whatever the three sources answered: with the name
    the reference-asset fetch returned, the average of the analysis of the
    headlines the news fetch returned, and the price the price fetch
    returned. *)
Theorem main_renders_report (rt : runtime) (w : world) (host : string)
    (port client_id : Z) (api_key : string) (sm : summary) :
  settings_loaded rt w host port client_id api_key ->
  analysis_result rt
    (news_result w api_key (spy_name_result w host port client_id)) = Ok sm ->
  run (main rt w) initial_state = Ok tt /\
  exists before,
    trace_of (main rt w) =
    (before ++ trace_of (display_report w (spy_name_result w host port client_id)
                           (average_sentiment_compound sm) (btc_price_result rt w)))%list.
Proof.
  intros Hset Hres. split; [apply main_never_raises|].
  eapply main_report_suffix; eassumption.
Qed.

Lemma sample_settings_loaded (w : world) :
  config_read w "config.ini" = Some (Ok sample_config) ->
  settings_loaded sample_runtime w "127.0.0.1" 7497 1 "k3y".
Proof. intros H. exists sample_config. repeat split; (exact H || reflexivity). Qed.

Lemma main_renders_report_witness :
  exists before sm,
    trace_of (main sample_runtime sample_world) =
    (before ++ trace_of (display_report sample_world "SPDR S&P 500 ETF TRUST"
                           (average_sentiment_compound sm) (float_lit 678901 10)))%list.
Proof.
  destruct (analysis_result_strings sample_runtime
              ["Markets rally on strong earnings"; "Recession fears grow"])
    as [sm Hsm].
  destruct (main_renders_report sample_runtime sample_world "127.0.0.1" 7497 1 "k3y" sm
              (sample_settings_loaded sample_world eq_refl) Hsm) as [_ [before H]].
  exists before, sm. exact H.
Defined.

(** X13: with the settings loaded and the headlines scored, the run starts
    exactly three fetches, each once and in this order: the connection to
    the broker with the configured host, port and client id, the news
    request whose query is the name just obtained and whose credential is
    the configured key, and the ticker query. *)
Theorem main_fetch_order (rt : runtime) (w : world) (host : string)
    (port client_id : Z) (api_key : string) (sm : summary) :
  settings_loaded rt w host port client_id api_key ->
  analysis_result rt
    (news_result w api_key (spy_name_result w host port client_id)) = Ok sm ->
  fetches (trace_of (main rt w)) =
    [IBConnect host port client_id;
     HttpGet "https://newsapi.org/v2/everything"
       (news_params api_key (spy_name_result w host port client_id));
     KrakenQueryPublic "Ticker" [("pair", "XXBTZUSD")]].
Proof.
  intros Hset Hres.
  destruct (main_report_steps rt w host port client_id api_key sm Hset Hres)
    as (spy_evs & news_line & an_lines & btc_line & H & Hnf).
  destruct (steps_trace_of _ _ _ H) as [_ Ht]. rewrite Ht.
  pose proof (fetches_display_report w (spy_name_result w host port client_id)
                (average_sentiment_compound sm) (btc_price_result rt w)) as Hd.
  revert Hd.
  generalize (trace_of (display_report w (spy_name_result w host port client_id)
                          (average_sentiment_compound sm) (btc_price_result rt w))).
  intros report Hd.
  unfold fetches in *. cbn [filter is_fetch].
  rewrite !filter_app. cbn [filter is_fetch].
  fold (fetches spy_evs). fold (fetches (map Print an_lines)).
  rewrite (no_fetch_fetches _ Hnf), fetches_prints, Hd. reflexivity.
Qed.

Lemma main_fetch_order_witness :
  fetches (trace_of (main sample_runtime sample_world)) =
    [IBConnect "127.0.0.1" 7497 1;
     HttpGet "https://newsapi.org/v2/everything"
       (news_params "k3y" "SPDR S&P 500 ETF TRUST");
     KrakenQueryPublic "Ticker" [("pair", "XXBTZUSD")]].
Proof.
  destruct (analysis_result_strings sample_runtime
              ["Markets rally on strong earnings"; "Recession fears grow"])
    as [sm Hsm].
  exact (main_fetch_order sample_runtime sample_world "127.0.0.1" 7497 1 "k3y" sm
           (sample_settings_loaded sample_world eq_refl) Hsm).
Defined.

(** X14: when the analysis of the headlines raises, which a title that is
    not a string can cause, the run stops there: the broker and the news
    service have been called, the ticker is never queried, no report is
    rendered, and the output ends with the lines of that error. *)
Theorem main_analysis_failure (rt : runtime) (w : world) (host : string)
    (port client_id : Z) (api_key : string) (e : exn) :
  settings_loaded rt w host port client_id api_key ->
  analysis_result rt
    (news_result w api_key (spy_name_result w host port client_id)) = Raise e ->
  fetches (trace_of (main rt w)) =
    [IBConnect host port client_id;
     HttpGet "https://newsapi.org/v2/everything"
       (news_params api_key (spy_name_result w host port client_id))] /\
  exists before,
    trace_of (main rt w) =
    (before
     ++ Print (analyzing_line
                 (List.length
                    (news_result w api_key (spy_name_result w host port client_id))))
     :: map Print (error_lines e))%list.
Proof.
  intros Hset Hres.
  destruct (main_analysis_raises_steps rt w host port client_id api_key e Hset Hres)
    as (spy_evs & news_line & H & Hnf).
  destruct (steps_trace_of _ _ _ H) as [_ Ht]. rewrite Ht.
  split.
  - unfold fetches. cbn [filter is_fetch].
    rewrite !filter_app. cbn [filter is_fetch].
    fold (fetches spy_evs). fold (fetches (map Print (error_lines e))).
    rewrite (no_fetch_fetches _ Hnf), fetches_prints. reflexivity.
  - generalize (map Print (error_lines e)). intros errs.
    eexists (_ :: _ :: _ :: _ :: spy_evs ++ [_; _; _])%list.
    cbn [app]. rewrite <- !app_assoc. cbn [app]. reflexivity.
Qed.

Lemma main_analysis_failure_witness :
  fetches (trace_of (main sample_runtime null_title_world)) =
    [IBConnect "127.0.0.1" 7497 1;
     HttpGet "https://newsapi.org/v2/everything"
       (news_params "k3y" "SPDR S&P 500 ETF TRUST")].
Proof.
  refine (proj1 (main_analysis_failure sample_runtime null_title_world
                   "127.0.0.1" 7497 1 "k3y"
                   (OtherException "TypeError" "'NoneType' object is not iterable")
                   (sample_settings_loaded null_title_world eq_refl) _)).
  reflexivity.
Defined.

Lemma main_report_lines (rt : runtime) (w : world) (host : string)
    (port client_id : Z) (api_key : string) (sm : summary) :
  settings_loaded rt w host port client_id api_key ->
  analysis_result rt
    (news_result w api_key (spy_name_result w host port client_id)) = Ok sm ->
  In (Print (ljust 30 "-> Activo de Referencia" ++ ": "
             ++ spy_name_result w host port client_id ++ " (vía IBKR)"))
     (trace_of (main rt w)) /\
  In (Print (ljust 30 "-> Sentimiento de Noticias" ++ ": "
             ++ get_sentiment_label (average_sentiment_compound sm)
             ++ " (vía NewsAPI & AI)"))
     (trace_of (main rt w)) /\
  In (Print (ljust 30 "-> Puntuación de Sentimiento" ++ ": "
             ++ format_f 3 (average_sentiment_compound sm)))
     (trace_of (main rt w)) /\
  In (Print (ljust 30 "-> Precio Actual" ++ ": $"
             ++ format_comma_f 2 (btc_price_result rt w)))
     (trace_of (main rt w)).
Proof.
  intros Hset Hres.
  destruct (main_report_suffix rt w host port client_id api_key sm Hset Hres)
    as [before Ht].
  destruct (display_report_lines w (spy_name_result w host port client_id)
              (average_sentiment_compound sm) (btc_price_result rt w))
    as (lines & H & Hlen & _ & H7 & H8 & H9 & H14 & _).
  destruct (steps_trace_of _ _ _ H) as [_ Hd].
  assert (Hin : forall n, (n < 24)%nat ->
                  In (Print (nth n lines "")) (trace_of (main rt w))).
  { intros n Hn. rewrite Ht, Hd. apply in_or_app. right. apply in_map.
    apply nth_In. rewrite Hlen. exact Hn. }
  rewrite <- H7, <- H8, <- H9, <- H14.
  repeat split; apply Hin; lia.
Qed.

(** X15: when the news fetch gives no headline, by a failure of any kind or
    because there is none, the report presents the sentiment as NEUTRAL with
    the score 0.000. *)
Theorem main_no_headlines_neutral (rt : runtime) (w : world) (host : string)
    (port client_id : Z) (api_key : string) :
  settings_loaded rt w host port client_id api_key ->
  news_result w api_key (spy_name_result w host port client_id) = [] ->
  In (Print "-> Sentimiento de Noticias    : NEUTRAL (vía NewsAPI & AI)")
     (trace_of (main rt w)) /\
  In (Print "-> Puntuación de Sentimiento  : 0.000") (trace_of (main rt w)).
Proof.
  intros Hset Hnews.
  assert (Hres : analysis_result rt
                   (news_result w api_key (spy_name_result w host port client_id))
                 = Ok (mkSummary float_zero []))
    by (rewrite Hnews; reflexivity).
  destruct (main_report_lines rt w host port client_id api_key _ Hset Hres)
    as (_ & Hlabel & Hscore & _).
  split; [exact Hlabel | exact Hscore].
Qed.

Lemma main_no_headlines_neutral_witness :
  In (Print "-> Sentimiento de Noticias    : NEUTRAL (vía NewsAPI & AI)")
     (trace_of (main sample_runtime news_down_world)).
Proof.
  refine (proj1 (main_no_headlines_neutral sample_runtime news_down_world
                   "127.0.0.1" 7497 1 "k3y"
                   (sample_settings_loaded news_down_world eq_refl) _)).
  reflexivity.
Defined.

(** X16: when the ticker query raises, the run goes on and the report shows
    the price as $0.00. *)
Theorem main_price_failure_zero (rt : runtime) (w : world) (host : string)
    (port client_id : Z) (api_key : string) (sm : summary) (e : exn) :
  settings_loaded rt w host port client_id api_key ->
  analysis_result rt
    (news_result w api_key (spy_name_result w host port client_id)) = Ok sm ->
  kraken_query_public w "Ticker" [("pair", "XXBTZUSD")] = Raise e ->
  In (Print "-> Precio Actual              : $0.00") (trace_of (main rt w)).
Proof.
  intros Hset Hres Hk.
  destruct (main_report_lines rt w host port client_id api_key sm Hset Hres)
    as (_ & _ & _ & Hprice).
  unfold btc_price_result in Hprice. rewrite Hk in Hprice. exact Hprice.
Qed.

Lemma main_price_failure_zero_witness :
  In (Print "-> Precio Actual              : $0.00")
     (trace_of (main sample_runtime kraken_down_world)).
Proof.
  destruct (analysis_result_strings sample_runtime
              ["Markets rally on strong earnings"; "Recession fears grow"])
    as [sm Hsm].
  exact (main_price_failure_zero sample_runtime kraken_down_world
           "127.0.0.1" 7497 1 "k3y" sm
           (OtherException "ConnectionError" "timed out")
           (sample_settings_loaded kraken_down_world eq_refl) Hsm eq_refl).
Defined.



(** ** connectors.py: the price read from a ticker *)

(** X18: from a ticker whose error list is empty or absent, the price
    returned is the first element of the field [c] of the pair XXBTZUSD,
    converted to a float, whatever else the response holds. *)
Theorem get_btc_price_last_trade (rt : runtime) (w : world)
    (d r p : list (string * pyval)) (price_text : string) (others : list pyval)
    (price : float) (s : state) :
  kraken_query_public w "Ticker" [("pair", "XXBTZUSD")] = Ok (VDict d) ->
  assoc "error" d = None \/ assoc "error" d = Some (VList []) ->
  assoc "result" d = Some (VDict r) ->
  assoc "XXBTZUSD" r = Some (VDict p) ->
  assoc "c" p = Some (VList (VStr price_text :: others)) ->
  float_of_str rt price_text = Some price ->
  run (get_btc_price rt w) s = Ok price.
Proof.
  intros Hq Herr Hr Hp Hc Hf.
  rewrite get_btc_price_run, Hq.
  unfold ticker_price, py_get, getitem_str.
  rewrite Hr, Hp, Hc. cbn [getitem_0 py_float]. rewrite Hf.
  destruct Herr as [-> | ->]; reflexivity.
Qed.

Lemma get_btc_price_last_trade_witness :
  run (get_btc_price sample_runtime sample_world) initial_state
  = Ok (float_lit 678901 10).
Proof.
  refine (get_btc_price_last_trade sample_runtime sample_world _ _ _
            "67890.10000" [VStr "0.001"] _ initial_state eq_refl _ eq_refl eq_refl
            eq_refl _).
  - right. reflexivity.
  - reflexivity.
Defined.
